(** * Adaptive moment analysis: the tuner and the dispatcher

    A shallow embedding of [tuner.py] (benchmark harness, crossover search,
    threshold cache) and of the dispatcher of [main.py], with the properties
    the specification states about them.

    Python integers are [Z], dictionaries are [gmap], lists are [list].
    Floating-point numbers are kept behind the interface [PyFloat]: the code
    only adds, subtracts, divides, compares and formats them, and every
    theorem below holds for any implementation of these operations.  Exact
    rational arithmetic ([Q]) is the instance used to run the definitions on
    concrete inputs. *)

From Stdlib Require Import ZArith QArith Qround Qabs Ascii String.
From Stdlib.Strings Require Import Byte.
From stdpp Require Import gmap strings list sorting pretty.

Local Open Scope Z_scope.
#[local] Set Warnings "-register-all,-clear-no-such-hyp".

(** ** Floating-point interface *)

(** What the program uses of Python's [float]: conversion from [int], [+],
    [-], [/], [<], the [f"{v:.2f}"] format and the [float(str)] parser.
    [x < x] is false for every float, NaN included. *)
Class PyFloat (F : Type) := {
  f_of_Z : Z → F;
  fadd : F → F → F;
  fsub : F → F → F;
  fdiv : F → F → F;
  fltb : F → F → bool;
  format_2f : F → string;
  float_of_str : string → F;
  fltb_irrefl : ∀ x, fltb x x = false
}.

(** *** Exact rationals as floats

    The instance used to evaluate the definitions: arithmetic on [Q] is
    exact, [format_2f] rounds to hundredths (ties to even, as the format
    does on the exact value of a float) and [float_of_str] reads a decimal
    literal back. *)
Module QFloat.

(** The number of hundredths nearest to [q], ties to even. *)
Definition hundredths (q : Q) : Z :=
  let n := Qnum q * 100 in
  let d := Z.pos (Qden q) in
  let fl := n `div` d in
  let r := n `mod` d in
  match 2 * r ?= d with
  | Lt => fl
  | Gt => fl + 1
  | Eq => if Z.even fl then fl else fl + 1
  end.

Definition two_digits (n : Z) : string :=
  pretty (n `div` 10) +:+ pretty (n `mod` 10).

Definition q_format_2f (q : Q) : string :=
  let h := Z.abs (hundredths q) in
  (if Qnum q <? 0 then "-" else "") +:+
  pretty (h `div` 100) +:+ "." +:+ two_digits (h `mod` 100).

Definition digit_of_ascii (c : ascii) : option Z :=
  let n := Z.of_nat (nat_of_ascii c) in
  if decide (48 ≤ n ≤ 57) then Some (n - 48) else None.

(** Reads the digits of [s]; [num] is the number read so far and [den] the
    power of ten its digits after the point amount to. *)
Fixpoint parse_decimal (s : string) (seen_point : bool) (num den : Z)
    : option (Z * Z) :=
  match s with
  | EmptyString => Some (num, den)
  | String c s' =>
      if Ascii.eqb c "."%char then
        if seen_point then None else parse_decimal s' true num den
      else
        match digit_of_ascii c with
        | Some dg =>
            parse_decimal s' seen_point (num * 10 + dg)
              (if seen_point then den * 10 else den)
        | None => None
        end
  end.

Definition q_of_parts (neg : bool) (p : option (Z * Z)) : Q :=
  match p with
  | Some (num, den) =>
      Qmake (if neg then - num else num) (Z.to_pos den)
  | None => Qmake 0 1
  end.

Definition q_float_of_str (s : string) : Q :=
  match s with
  | String c s' =>
      if Ascii.eqb c "-"%char
      then q_of_parts true (parse_decimal s' false 0 1)
      else q_of_parts false (parse_decimal s false 0 1)
  | EmptyString => Qmake 0 1
  end.

Definition q_ltb (x y : Q) : bool := negb (Qle_bool y x).

#[global, refine] Instance q_float : PyFloat Q := {|
  f_of_Z := inject_Z;
  fadd := Qplus;
  fsub := Qminus;
  fdiv := Qdiv;
  fltb := q_ltb;
  format_2f := q_format_2f;
  float_of_str := q_float_of_str
|}.
Proof.
  intros x. unfold q_ltb. apply negb_false_iff, Qle_bool_iff, Qle_refl.
Defined.

End QFloat.

(** ** Python exceptions and outcomes *)

Inductive pyexc :=
  | KeyError
  | ValueError
  | ZeroDivisionError
  | AttributeError
  | JSONDecodeError
  | OSError (msg : string).

Inductive outcome (A : Type) :=
  | Return (a : A)
  | Raise (e : pyexc).
Arguments Return {A} a.
Arguments Raise {A} e.

(** [str(e)] *)
Definition exc_message (e : pyexc) : string :=
  match e with
  | OSError msg => msg
  | _ => ""
  end.

(** [range(start, stop, step)] for a positive step; empty otherwise, which is
    all the program needs. *)
Definition py_range3 (start stop step : Z) : list Z :=
  if decide (0 < step) then
    (λ k : nat, start + step * Z.of_nat k)
      <$> seq 0 (Z.to_nat ((stop - start + step - 1) `div` step))
  else [].

(** [range(n)] *)
Definition py_range (n : Z) : list Z := Z.of_nat <$> seq 0 (Z.to_nat n).

Module Tuner.

Section Crossover.
Context {F : Type} `{PyFloat F}.

(** [sorted(d.keys())] *)
Definition sorted_keys (d : gmap Z F) : list Z :=
  merge_sort Z.le (elements (dom d)).

(** [max(keys)]: [ValueError] on an empty sequence. *)
Definition py_max (l : list Z) : outcome Z :=
  match l with
  | [] => Raise ValueError
  | x :: l' => Return (foldl Z.max x l')
  end.

(** [d[n]]: [KeyError] when the key is absent. *)
Definition py_getitem (d : gmap Z F) (n : Z) : outcome F :=
  match d !! n with
  | Some v => Return v
  | None => Raise KeyError
  end.

(** The [for] loop of [_find_crossover] over the keys still to be
    scanned; [None] when the loop ends without returning. *)
Fixpoint scan_crossover (twopass_times pebay_times : gmap Z F)
    (keys : list Z) : outcome (option Z) :=
  match keys with
  | [] => Return None
  | n :: rest =>
      match py_getitem pebay_times n with
      | Raise e => Raise e
      | Return p =>
          match py_getitem twopass_times n with
          | Raise e => Raise e
          | Return t =>
              if fltb p t then Return (Some n)
              else scan_crossover twopass_times pebay_times rest
          end
      end
  end.

Definition _find_crossover (twopass_times pebay_times : gmap Z F)
    : outcome Z :=
  match scan_crossover twopass_times pebay_times
          (sorted_keys twopass_times) with
  | Raise e => Raise e
  | Return (Some n) => Return n
  | Return None => py_max (elements (dom twopass_times))
  end.

(** The comparison of the loop at length [n], as a test on the tables:
    the online timing is strictly less than the two-pass timing. *)
Definition pebay_faster (twopass_times pebay_times : gmap Z F) (n : Z)
    : bool :=
  match pebay_times !! n, twopass_times !! n with
  | Some p, Some t => fltb p t
  | _, _ => false
  end.
End Crossover.

(** ** The environment of the tuner *)

(** What [platform] and [getpass] report. *)
Record identity := {
  platform_system : string;
  machine : string;
  processor : string;
  python_version : string;
  user : string
}.

Section Model.
Context {F : Type} `{PyFloat F}.
(** The callables handed to the harness.  They are run for their duration
    only: the harness drops what they return, and they are taken to
    return. *)
Context {Fn : Type}.
(** [sha256(json.dumps(identity, sort_keys=True).encode()).hexdigest()] *)
Context (digest : identity → string).

(** Values that [json.load] yields and [json.dump] accepts.  An object is
    the list of its items; a key is looked up from the front. *)
Inductive json :=
  | JNull
  | JBool (b : bool)
  | JInt (z : Z)
  | JFloat (x : F)
  | JStr (s : string)
  | JList (l : list json)
  | JObj (items : list (string * json)).

(** The text of a file, as [json.load] sees it: text it rejects, or the
    encoding of a value. *)
Inductive file_content :=
  | Malformed (text : string)
  | Encoded (v : json).

(** How writing the configuration file fails: [open(path, "w")] raises and
    the file is untouched, or [json.dump] raises after the file was
    truncated, leaving a part of the text. *)
Inductive write_failure :=
  | OpenFails (msg : string)
  | DumpFails (msg : string) (partial : string).

Record world := {
  ident : identity;
  (** the file at [CONFIG_PATH], if it exists *)
  config_file : option file_content;
  (** [open(CONFIG_PATH, "r")] raises with this message *)
  read_error : option string;
  write_error : option write_failure;
  (** the successive readings of [time.perf_counter] *)
  clock : nat → F;
  reads : nat;
  (** what was printed *)
  stdout : list string;
  (** the invocations of benchmarked callables, in order *)
  calls : list (Fn * list Z)
}.

Definition set_config_file (c : option file_content) (w : world) : world :=
  {| ident := ident w; config_file := c; read_error := read_error w;
     write_error := write_error w; clock := clock w; reads := reads w;
     stdout := stdout w; calls := calls w |}.

Definition set_reads (n : nat) (w : world) : world :=
  {| ident := ident w; config_file := config_file w;
     read_error := read_error w; write_error := write_error w;
     clock := clock w; reads := n; stdout := stdout w; calls := calls w |}.

Definition set_stdout (o : list string) (w : world) : world :=
  {| ident := ident w; config_file := config_file w;
     read_error := read_error w; write_error := write_error w;
     clock := clock w; reads := reads w; stdout := o; calls := calls w |}.

Definition set_calls (c : list (Fn * list Z)) (w : world) : world :=
  {| ident := ident w; config_file := config_file w;
     read_error := read_error w; write_error := write_error w;
     clock := clock w; reads := reads w; stdout := stdout w; calls := c |}.

(** *** Computations: state and exceptions *)

Definition M (A : Type) : Type := world → outcome A * world.

Definition ret {A} (a : A) : M A := λ w, (Return a, w).

Definition bind {A B} (m : M A) (k : A → M B) : M B := λ w,
  match m w with
  | (Return a, w') => k a w'
  | (Raise e, w') => (Raise e, w')
  end.

Definition raise {A} (e : pyexc) : M A := λ w, (Raise e, w).

Definition lift {A} (o : outcome A) : M A := λ w, (o, w).

(** [try: body except Exception as e: handler(e)] *)
Definition try_except {A} (body : M A) (handler : pyexc → M A) : M A := λ w,
  match body w with
  | (Return a, w') => (Return a, w')
  | (Raise e, w') => handler e w'
  end.

Notation "x <~ c1 ;; c2" := (bind c1 (λ x, c2))
  (at level 100, c1 at next level, right associativity).
Notation "c1 ;;; c2" := (bind c1 (λ _, c2))
  (at level 100, right associativity).

(** [for x in l: acc = body(acc, x)], stopping at the first exception. *)
Fixpoint for_each {A B} (body : A → B → M A) (acc : A) (l : list B) : M A :=
  match l with
  | [] => ret acc
  | x :: l' => acc' <~ body acc x ;; for_each body acc' l'
  end.

(** *** Primitive effects *)

Definition perf_counter : M F := λ w,
  (Return (clock w (reads w)), set_reads (S (reads w)) w).

(** [func(row)] *)
Definition call (func : Fn) (row : list Z) : M unit := λ w,
  (Return (), set_calls (calls w ++ [(func, row)]) w).

Definition print (line : string) : M unit := λ w,
  (Return (), set_stdout (stdout w ++ [line]) w).

(** [os.path.exists(CONFIG_PATH)] *)
Definition path_exists : M bool := λ w,
  (Return (bool_decide (is_Some (config_file w))), w).

(** [with open(CONFIG_PATH, "r") as f: json.load(f)] *)
Definition json_load_config : M json := λ w,
  match read_error w with
  | Some msg => (Raise (OSError msg), w)
  | None =>
      match config_file w with
      | None => (Raise (OSError "No such file or directory"), w)
      | Some (Malformed _) => (Raise JSONDecodeError, w)
      | Some (Encoded v) => (Return v, w)
      end
  end.

(** [with open(CONFIG_PATH, "w") as f: json.dump(v, f, indent=2)] *)
Definition json_dump_config (v : json) : M unit := λ w,
  match write_error w with
  | Some (OpenFails msg) => (Raise (OSError msg), w)
  | Some (DumpFails msg partial) =>
      (Raise (OSError msg), set_config_file (Some (Malformed partial)) w)
  | None => (Return (), set_config_file (Some (Encoded v)) w)
  end.

(** The fingerprint of the machine.  A world records what [platform] and
    [getpass.getuser()] returned; a process in which [getpass.getuser()]
    raises (no variable names the user and the uid has no entry in the
    password database) is no world of this model: there the call of
    [get_optimal_threshold] ends at its first line with that exception, and
    nothing stated below is about it. *)
Definition _system_fingerprint : M string := λ w,
  (Return (digest (ident w)), w).

(** *** Dictionaries loaded from JSON *)

Fixpoint assoc (key : string) (items : list (string * json)) : option json :=
  match items with
  | [] => None
  | (k, v) :: rest => if String.eqb k key then Some v else assoc key rest
  end.

(** [config.get(key)]: [None] for an absent key, [AttributeError] when
    [config] is not a dictionary. *)
Definition dict_get (config : json) (key : string) : outcome json :=
  match config with
  | JObj items => Return (default JNull (assoc key items))
  | _ => Raise AttributeError
  end.

(** [key in config], for a dictionary. *)
Definition dict_contains (config : json) (key : string) : bool :=
  match config with
  | JObj items => bool_decide (is_Some (assoc key items))
  | _ => false
  end.

(** [config[key]] *)
Definition dict_getitem (config : json) (key : string) : outcome json :=
  match config with
  | JObj items =>
      match assoc key items with
      | Some v => Return v
      | None => Raise KeyError
      end
  | _ => Raise AttributeError
  end.

(** [v == s] for a string [s] *)
Definition eq_str (v : json) (s : string) : bool :=
  match v with
  | JStr s' => String.eqb s' s
  | _ => false
  end.

(** A timing table as [json.dump] writes it: keys become their decimal
    text, in the order the table was filled (ascending). *)
Definition json_of_timings (t : gmap Z F) : json :=
  JObj (omap (λ n, (λ v, (pretty n, JFloat v)) <$> t !! n) (sorted_keys t)).

(** *** Benchmark harness *)

(** [[i % 128 - 64 for i in range(n)]] *)
Definition synthetic_row (n : Z) : list Z :=
  (λ i, i `mod` 128 - 64) <$> py_range n.

(** [sum(durations)] *)
Definition py_sum (durations : list F) : F :=
  foldl fadd (f_of_Z 0) durations.

(** [total / repeat] *)
Definition py_truediv (total : F) (repeat : Z) : outcome F :=
  if decide (repeat = 0) then Raise ZeroDivisionError
  else Return (fdiv total (f_of_Z repeat)).

(** The inner loop, [for _ in range(repeat)], with [k] rounds to go. *)
Fixpoint time_calls (func : Fn) (row : list Z) (k : nat)
    (durations : list F) : M (list F) :=
  match k with
  | O => ret durations
  | S k' =>
      start <~ perf_counter ;;
      call func row ;;;
      stop <~ perf_counter ;;
      time_calls func row k' (durations ++ [fsub stop start])
  end.

(** The body of the outer loop. *)
Definition benchmark_length (func : Fn) (repeat : Z)
    (results : gmap Z F) (n : Z) : M (gmap Z F) :=
  let row := synthetic_row n in
  durations <~ time_calls func row (Z.to_nat repeat) [] ;;
  avg <~ lift (py_truediv (py_sum durations) repeat) ;;
  ret (<[n := avg]> results).

Definition _run_benchmark (func : Fn) (row_lengths : list Z) (repeat : Z)
    : M (gmap Z F) :=
  for_each (benchmark_length func repeat) ∅ row_lengths.

(** *** The tuner *)

(** The [try] block that reads the cache: [Some v] when it returns [v]
    from [get_optimal_threshold], [None] when control leaves the block
    and falls through to the benchmark. *)
Definition load_cached (system_id : string) : M (option json) :=
  try_except
    (config <~ json_load_config ;;
     stored <~ lift (dict_get config "system_id") ;;
     if eq_str stored system_id && dict_contains config "threshold" then
       threshold <~ lift (dict_getitem config "threshold") ;;
       ret (Some threshold)
     else ret None)
    (λ _, ret None).

(** The sweep [list(range(8, 2049, 32))]. *)
Definition row_lengths : list Z := py_range3 8 2049 32.

(** The record [get_optimal_threshold] writes. *)
Definition config_record (threshold : Z) (system_id : string)
    (twopass pebay : gmap Z F) : json :=
  JObj [("threshold", JInt threshold);
        ("system_id", JStr system_id);
        ("twopass", json_of_timings twopass);
        ("pebay", json_of_timings pebay)].

(** Everything after the cache lookup. *)
Definition benchmark_and_save (twopass_fn pebay_fn : Fn)
    (system_id : string) : M json :=
  print "Running algorithm benchmarks (first use or system changed)..." ;;;
  twopass <~ _run_benchmark twopass_fn row_lengths 5 ;;
  pebay <~ _run_benchmark pebay_fn row_lengths 5 ;;
  threshold <~ lift (_find_crossover twopass pebay) ;;
  try_except
    (json_dump_config (config_record threshold system_id twopass pebay))
    (λ e, print ("Warning: Failed to save config file: " +:+
                 exc_message e)) ;;;
  ret (JInt threshold).

Definition get_optimal_threshold (twopass_fn pebay_fn : Fn)
    (force_retune : bool) : M json :=
  system_id <~ _system_fingerprint ;;
  present <~ (if force_retune then ret false else path_exists) ;;
  cached <~ (if present then load_cached system_id else ret None) ;;
  match cached with
  | Some threshold => ret threshold
  | None => benchmark_and_save twopass_fn pebay_fn system_id
  end.

(** *** Vocabulary of the statements *)

(** From [w] to [w'] nothing happened but the invocations [cs] and
    readings of the clock: same identity, file, faults and output. *)
Definition only_calls (w w' : world) (cs : list (Fn * list Z)) : Prop :=
  ident w' = ident w ∧ config_file w' = config_file w ∧
  read_error w' = read_error w ∧ write_error w' = write_error w ∧
  clock w' = clock w ∧ stdout w' = stdout w ∧
  calls w' = calls w ++ cs.

(** The invocations of one harness run: [repeat] per length, in order. *)
Definition harness_calls (func : Fn) (lengths : list Z) (repeat : Z)
    : list (Fn * list Z) :=
  flat_map (λ n, replicate (Z.to_nat repeat) (func, synthetic_row n))
    lengths.

(** The call does not return from the cache: it is forced to retune,
    there is no file, or the [try] block falls through. *)
Definition benchmarks (force_retune : bool) (w : world) : Prop :=
  force_retune = true ∨ config_file w = None ∨
  (load_cached (digest (ident w)) w).1 = Return None.

(** The states of the cache file the lookup rejects, for the fingerprint
    [system_id] of the moment. *)
Inductive cache_unusable (system_id : string) (w : world) : Prop :=
  | cache_missing :
      config_file w = None → cache_unusable system_id w
  | cache_unreadable msg :
      read_error w = Some msg → cache_unusable system_id w
  | cache_corrupt text :
      config_file w = Some (Malformed text) → cache_unusable system_id w
  | cache_not_object v :
      config_file w = Some (Encoded v) → (∀ items, v ≠ JObj items) →
      cache_unusable system_id w
  | cache_no_threshold items :
      config_file w = Some (Encoded (JObj items)) →
      assoc "threshold" items = None → cache_unusable system_id w
  | cache_other_system items :
      config_file w = Some (Encoded (JObj items)) →
      assoc "system_id" items ≠ Some (JStr system_id) →
      cache_unusable system_id w.

(** The durations the inner loop measures in [count] rounds when the next
    reading of the clock is number [from]: each is the reading after an
    invocation minus the reading before it. *)
Definition measured (clk : nat → F) (from count : nat) : list F :=
  (λ k : nat, fsub (clk (from + 2 * k + 1)%nat) (clk (from + 2 * k)%nat))
    <$> seq 0 count.

(** [sum(durations) / repeat] for these durations. *)
Definition mean_duration (clk : nat → F) (from : nat) (repeat : Z) : F :=
  fdiv (py_sum (measured clk from (Z.to_nat repeat))) (f_of_Z repeat).

Definition failure_message (failure : write_failure) : string :=
  match failure with
  | OpenFails msg => msg
  | DumpFails msg _ => msg
  end.

(** [threshold] is what a benchmark started in [w] computes: the crossover
    of the two tables measured then; [w'] is the world after the
    measurements. *)
Definition fresh_threshold (twopass_fn pebay_fn : Fn) (w : world)
    (twopass pebay : gmap Z F) (threshold : Z) (w' : world) : Prop :=
  ∃ w1,
    _run_benchmark twopass_fn row_lengths 5 w = (Return twopass, w1) ∧
    _run_benchmark pebay_fn row_lengths 5 w1 = (Return pebay, w') ∧
    _find_crossover twopass pebay = Return threshold.
End Model.
End Tuner.


(** ** The dispatcher of [main.py] *)

Module Main.

Section Dispatcher.
Context {F : Type} `{PyFloat F}.

(** What an accumulator of [momentcore] returns: mean, variance, skewness
    and kurtosis of a row. *)
Record MomentResult := {
  mu1 : F;
  mu2 : F;
  mu3 : F;
  mu4 : F
}.

(** [row_moments[i]] for the indices the dispatcher uses, 0 to 3. *)
Definition moment_at (r : MomentResult) (i : nat) : F :=
  match i with
  | 0%nat => mu1 r
  | 1%nat => mu2 r
  | 2%nat => mu3 r
  | _ => mu4 r
  end.

(** The two accumulators of the extension module [momentcore]. *)
Context (compute_moments_twopass compute_moments_pebay
           : list Z → MomentResult).

Definition round_half_up (value : F) : F :=
  float_of_str (format_2f value).

(** [results[i].append(v)] *)
Definition append_at (i : nat) (v : F) (results : list (list F))
    : list (list F) :=
  alter (λ column, column ++ [v]) i results.

(** The choice of accumulator for a row. *)
Definition algo (row_list : list Z) (threshold : Z)
    : list Z → MomentResult :=
  if decide (Z.of_nat (length row_list) < threshold)
  then compute_moments_twopass
  else compute_moments_pebay.

(** The body of the loop over the rows. *)
Definition process_row (threshold : Z) (results : list (list F))
    (row_list : list Z) : list (list F) :=
  let row_moments := algo row_list threshold row_list in
  foldl (λ res i, append_at i (round_half_up (moment_at row_moments i)) res)
    results (seq 0 4).

Definition compute_moment_rows (data : list (list Z)) (threshold : Z)
    : list (list F) :=
  foldl (process_row threshold) (replicate 4 []) data.

(** What the dispatcher puts out for a row as its [i]-th moment. *)
Definition output_of (threshold : Z) (i : nat) (row : list Z) : F :=
  round_half_up (moment_at (algo row threshold row) i).
End Dispatcher.

(** *** Comparison with expected values *)

(** How [compare_outputs] ends: with a verdict, or with the [IndexError] of
    [computed[i]] when there are fewer than four sequences. *)
Inductive compared :=
  | Verdict (matched : bool)
  | IndexError.

Section Compare.
Context {F : Type} `{PyFloat F}.
(** [abs] on floats and the literal [0.01]. *)
Context (fabs : F → F) (tolerance : F).

(** [abs(c - e) > 0.01] *)
Definition exceeds (c e : F) : bool :=
  fltb tolerance (fabs (fsub c e)).

(** [[(j, c, e) for j, (c, e) in enumerate(zip(cs, es)) if abs(c - e) > 0.01]],
    with [j] counted from [start]. *)
Fixpoint mismatches_from (start : nat) (cs es : list F)
    : list (nat * F * F) :=
  match cs, es with
  | c :: cs', e :: es' =>
      (if exceeds c e then [(start, c, e)] else [])
      ++ mismatches_from (S start) cs' es'
  | _, _ => []
  end.

(** The name of moment [i] in the messages, [μ{i+1}]. *)
Definition moment_name (i : nat) : string := "μ" +:+ pretty (S i).

Definition mismatch_line (m : nat * F * F) : string :=
  "   Index " +:+ pretty m.1.1 +:+ ": computed=" +:+ format_2f m.1.2 +:+
  ", expected=" +:+ format_2f m.2.

(** The body of the loop for moment [i]: the lines it prints and whether it
    leaves [matched] alone. *)
Definition compare_moment (i : nat) (cs es : list F) : list string * bool :=
  if decide (length cs ≠ length es) then
    (["Row length mismatch at moment " +:+ moment_name i +:+ "."], false)
  else
    match mismatches_from 0 cs es with
    | [] => (["Moment " +:+ moment_name i +:+ " matched."], true)
    | ms =>
        (("Moment " +:+ moment_name i +:+ ": " +:+ pretty (length ms) +:+
          " mismatches") :: (mismatch_line <$> take 5 ms),
         false)
    end.

(** The loop [for i in range(4)] over the indices still to be visited. *)
Fixpoint compare_loop (indices : list nat) (computed expected : list (list F))
    (matched : bool) (printed : list string) : list string * compared :=
  match indices with
  | [] => (printed, Verdict matched)
  | i :: rest =>
      match computed !! i, expected !! i with
      | Some cs, Some es =>
          let '(lines, ok) := compare_moment i cs es in
          compare_loop rest computed expected (matched && ok)
            (printed ++ lines)
      | _, _ => (printed, IndexError)
      end
  end.

(** Two sequences agree: same length, and no pair of values at the same
    index differs by more than the tolerance. *)
Definition within_tolerance (cs es : list F) : Prop :=
  length cs = length es ∧
  ∀ (j : nat) c e, cs !! j = Some c → es !! j = Some e → exceeds c e = false.

(** What is printed, and the result. *)
Definition compare_outputs (computed expected : list (list F))
    : list string * compared :=
  if decide (length computed ≠ length expected) then
    (["Row count mismatch between computed and expected."], Verdict false)
  else compare_loop (seq 0 4) computed expected true [].
End Compare.

(** *** Binary matrix files

    A file is the list of its bytes: [int32 M][int32 N][int8 x M*N], the
    integers little-endian. *)

(** The value of a byte, 0 to 255. *)
Definition byte_value (b : byte) : Z := Z.of_N (Byte.to_N b).

(** A byte read as [np.int8]. *)
Definition int8_of_byte (b : byte) : Z :=
  if decide (128 ≤ byte_value b) then byte_value b - 256 else byte_value b.

(** [struct.unpack("<i", bytes([b0, b1, b2, b3]))] *)
Definition unpack_int32 (b0 b1 b2 b3 : byte) : Z :=
  let u := byte_value b0 + 2 ^ 8 * byte_value b1 + 2 ^ 16 * byte_value b2
           + 2 ^ 24 * byte_value b3 in
  if decide (2 ^ 31 ≤ u) then u - 2 ^ 32 else u.

(** [flat.reshape((M, N))], row after row. *)
Fixpoint reshape (M N : nat) (flat : list Z) : list (list Z) :=
  match M with
  | O => []
  | S M' => take N flat :: reshape M' N (drop N flat)
  end.

(** [read_binary_matrix] on the bytes of the file. *)
Definition read_binary_matrix (file : list byte) : outcome (list (list Z)) :=
  match file with
  | b0 :: b1 :: b2 :: b3 :: b4 :: b5 :: b6 :: b7 :: data =>
      let M := unpack_int32 b0 b1 b2 b3 in
      let N := unpack_int32 b4 b5 b6 b7 in
      if decide (M ≤ 0 ∨ N ≤ 0) then Raise ValueError
      else
        let matrix := int8_of_byte <$> data in
        if decide (Z.of_nat (length matrix) ≠ M * N) then Raise ValueError
        else Return (reshape (Z.to_nat M) (Z.to_nat N) matrix)
  | _ => Raise ValueError
  end.

(** The byte whose value is [z] modulo 256: [astype(np.int8)] and the bytes
    of [struct.pack]. *)
Definition byte_of_Z (z : Z) : byte :=
  default Byte.x00 (Byte.of_N (Z.to_N (z `mod` 256))).

(** [struct.pack("<i", v)]: [None] stands for [struct.error], raised when
    [v] does not fit 32 bits. *)
Definition pack_int32 (v : Z) : option (list byte) :=
  if decide (- 2 ^ 31 ≤ v < 2 ^ 31) then
    Some [byte_of_Z v; byte_of_Z (v `div` 2 ^ 8); byte_of_Z (v `div` 2 ^ 16);
          byte_of_Z (v `div` 2 ^ 24)]
  else None.

(** The writer of the test-suite, [write_bin_file], for a matrix of shape
    [(length matrix, cols)]: the bytes it writes. *)
Definition write_bin_file (cols : nat) (matrix : list (list Z))
    : option (list byte) :=
  rows_bytes ← pack_int32 (Z.of_nat (length matrix));
  cols_bytes ← pack_int32 (Z.of_nat cols);
  Some (rows_bytes ++ cols_bytes ++ (byte_of_Z <$> concat matrix)).

End Main.

(** ** Concrete inputs

    The tables of the specification's examples and of the test-suite, over
    exact rationals. *)

Module Examples.
Import QFloat.
Local Open Scope Q_scope.

(** [{8: 0.5, 16: 0.6, 32: 0.8}] *)
Definition two_pass : gmap Z Q :=
  {[ 8%Z := 5 # 10; 16%Z := 6 # 10; 32%Z := 8 # 10 ]}.

(** [{8: 0.7, 16: 0.5, 32: 0.3}] *)
Definition pebay : gmap Z Q :=
  {[ 8%Z := 7 # 10; 16%Z := 5 # 10; 32%Z := 3 # 10 ]}.

(** [{8: 0.9, 16: 0.8, 32: 0.9}], always slower *)
Definition pebay2 : gmap Z Q :=
  {[ 8%Z := 9 # 10; 16%Z := 8 # 10; 32%Z := 9 # 10 ]}.

(** A single length with equal timings. *)
Definition tied : gmap Z Q := {[ 8%Z := 1 # 1 ]}.

Definition no_timings : gmap Z Q := ∅.

(** A machine, and a stand-in for the digest of its description. *)
Definition host : Tuner.identity :=
  Tuner.Build_identity "Linux" "x86_64" "x86_64" "3.11.4" "pooja".

Definition digest (i : Tuner.identity) : string :=
  Tuner.platform_system i +:+ "/" +:+ Tuner.machine i +:+ "/" +:+
  Tuner.processor i +:+ "/" +:+ Tuner.python_version i +:+ "/" +:+
  Tuner.user i.

(** The callables of the harness, named by a boolean: [true] is the
    two-pass accumulator, [false] the online one. *)
Definition world : Type := Tuner.world (F:=Q) (Fn:=bool).

(** A clock whose reading number [k] is [k * k]. *)
Definition ticking (k : nat) : Q := inject_Z (Z.of_nat k * Z.of_nat k).

Definition in_state (file : option (Tuner.file_content (F:=Q)))
    (failure : option Tuner.write_failure) : world :=
  {| Tuner.ident := host; Tuner.config_file := file;
     Tuner.read_error := None; Tuner.write_error := failure;
     Tuner.clock := ticking; Tuner.reads := 0%nat;
     Tuner.stdout := []; Tuner.calls := [] |}.

(** First use: no configuration file. *)
Definition first_use : world := in_state None None.

(** The corrupted file of the test-suite. *)
Definition broken_json : world :=
  in_state (Some (Tuner.Malformed "{broken json")) None.

(** A record of this machine whose threshold is a string. *)
Definition text_threshold : world :=
  in_state
    (Some (Tuner.Encoded
             (Tuner.JObj [("threshold", Tuner.JStr "fast");
                          ("system_id", Tuner.JStr (digest host))])))
    None.

(** The configuration file cannot be opened for writing. *)
Definition read_only : world :=
  in_state None (Some (Tuner.OpenFails "Permission denied")).

(** Stand-ins for the two accumulators of the extension module: the mean
    and the variance of the row in exact arithmetic, and in place of the
    skewness and the kurtosis a mark that tells the accumulators apart,
    1 for the two-pass one and 2 for the online one. *)
Definition mean (row : list Z) : Q :=
  Qred (inject_Z (foldr Z.add 0%Z row) / inject_Z (Z.of_nat (length row))).

Definition variance (row : list Z) : Q :=
  Qred (foldr (λ x acc, (inject_Z x - mean row) * (inject_Z x - mean row) + acc)
          0 row
        / inject_Z (Z.of_nat (length row))).

Definition marked (mark : Q) (row : list Z) : Main.MomentResult (F:=Q) :=
  {| Main.mu1 := mean row; Main.mu2 := variance row;
     Main.mu3 := mark; Main.mu4 := mark |}.

Definition twopass_stand_in := marked 1.
Definition pebay_stand_in := marked 2.

(** The online table of the example without its entry for length 16. *)
Definition pebay_without_16 : gmap Z Q :=
  {[ 8%Z := 7 # 10; 32%Z := 3 # 10 ]}.

(** A record of this machine with threshold 72 and no timing tables. *)
Definition tuned : world :=
  in_state
    (Some (Tuner.Encoded
             (Tuner.JObj [("threshold", Tuner.JInt 72);
                          ("system_id", Tuner.JStr (digest host))])))
    None.

(** Computed and expected values for a matrix of two rows; the expected
    mean of the second row is off by 0.02, the other values by at most
    0.01. *)
Definition computed_values : list (list Q) :=
  [[2 # 1; 5 # 1]; [67 # 100; 67 # 100]; [0 # 1; 0 # 1]; [-3 # 2; -3 # 2]].

Definition expected_close : list (list Q) :=
  [[2 # 1; 501 # 100]; [66 # 100; 67 # 100]; [0 # 1; 0 # 1];
   [-3 # 2; -149 # 100]].

Definition expected_off : list (list Q) :=
  [[2 # 1; 502 # 100]; [66 # 100; 67 # 100]; [0 # 1; 0 # 1];
   [-3 # 2; -149 # 100]].

Definition tolerance : Q := 1 # 100.

(** The file of the example matrix: header 2, 3 and the six entries; the
    same file without its last byte; a file of four bytes. *)
Definition matrix_file : list byte :=
  [x02; x00; x00; x00; x03; x00; x00; x00; x01; x02; x03; x04; x05; x06].

Definition truncated_file : list byte :=
  [x02; x00; x00; x00; x03; x00; x00; x00; x01; x02; x03; x04; x05].

(** The disk fills up while the configuration is written. *)
Definition disk_full : world :=
  in_state None
    (Some (Tuner.DumpFails "No space left on device" "{ threshold"))%string.

(** Stand-ins whose four moments all differ and depend on the row: the mean,
    the variance, the mean plus the mark, the square of the mean plus the
    mark. *)
Definition four_moments (mark : Q) (row : list Z)
    : Main.MomentResult (F:=Q) :=
  {| Main.mu1 := mean row; Main.mu2 := variance row;
     Main.mu3 := Qred (mark + mean row);
     Main.mu4 := Qred (mark + mean row * mean row) |}.

Definition twopass_four := four_moments 1.
Definition pebay_four := four_moments 2.

(** The matrix of the specification's example. *)
Definition matrix : list (list Z) := [[1; 2; 3]; [4; 5; 6]]%Z.
End Examples.

(** * Properties *)

Import Tuner.

(** ** Crossover search *)

Section CrossoverProps.
Context {F : Type} `{PyFloat F}.
Implicit Types (tp pb : gmap Z F) (keys : list Z) (n m : Z).

Lemma elem_of_sorted_keys tp n : n ∈ sorted_keys tp ↔ n ∈ dom tp.
Proof.
  unfold sorted_keys. rewrite merge_sort_Permutation. apply elem_of_elements.
Qed.

Lemma sorted_keys_sorted tp : StronglySorted Z.le (sorted_keys tp).
Proof. apply StronglySorted_merge_sort; apply _. Qed.

Lemma foldl_max_le x l : x ≤ foldl Z.max x l.
Proof.
  revert x. induction l as [|y l IH]; intros x; simpl; [lia|].
  specialize (IH (Z.max x y)). lia.
Qed.

Lemma foldl_max_upper x l m : m ∈ l → m ≤ foldl Z.max x l.
Proof.
  revert x. induction l as [|y l IH]; intros x Hm; simpl.
  - by apply elem_of_nil in Hm.
  - apply elem_of_cons in Hm as [->|Hm]; [|by apply IH].
    pose proof (foldl_max_le (Z.max x y) l). lia.
Qed.

Lemma foldl_max_elem x l : foldl Z.max x l ∈ x :: l.
Proof.
  revert x. induction l as [|y l IH]; intros x; simpl; [set_solver|].
  specialize (IH (Z.max x y)).
  destruct (Z.max_spec x y) as [[_ Hmax]|[_ Hmax]]; rewrite Hmax in *;
    set_solver.
Qed.

(** [max] of a non-empty sequence is its greatest element. *)
Lemma py_max_spec l :
  l ≠ [] → ∃ n, py_max l = Return n ∧ n ∈ l ∧ ∀ m, m ∈ l → m ≤ n.
Proof.
  destruct l as [|x l]; [done|]. intros _. exists (foldl Z.max x l).
  split; [done|]. split; [apply foldl_max_elem|].
  intros m [->|Hm]%elem_of_cons; [apply foldl_max_le|by apply foldl_max_upper].
Qed.

Lemma py_max_return l n :
  py_max l = Return n → n ∈ l ∧ ∀ m, m ∈ l → m ≤ n.
Proof.
  destruct l as [|x l]; [done|]. intros Hn.
  destruct (py_max_spec (x :: l)) as (n' & Hn' & ?); [done|]. naive_solver.
Qed.

(** What the loop does on the keys it is given: it stops at the first key
    where the online timing is strictly lower, runs to the end when there
    is none, and raises only on a key one of the tables lacks. *)
Lemma scan_crossover_spec tp pb keys :
  match scan_crossover tp pb keys with
  | Return (Some n) =>
      ∃ l1 l2, keys = l1 ++ n :: l2 ∧ pebay_faster tp pb n = true ∧
               Forall (λ m, pebay_faster tp pb m = false) l1
  | Return None =>
      Forall (λ m, pebay_faster tp pb m = false ∧ m ∈ dom pb ∧ m ∈ dom tp)
        keys
  | Raise e =>
      e = KeyError ∧ ∃ m, m ∈ keys ∧ (m ∉ dom pb ∨ m ∉ dom tp)
  end.
Proof.
  induction keys as [|k keys IH]; simpl; [by constructor|].
  unfold py_getitem, pebay_faster at 1 2 3.
  destruct (pb !! k) as [p|] eqn:Hp; simpl.
  2:{ split; [done|]. exists k. split; [set_solver|].
      left. by apply not_elem_of_dom. }
  destruct (tp !! k) as [t|] eqn:Ht; simpl.
  2:{ split; [done|]. exists k. split; [set_solver|].
      right. by apply not_elem_of_dom. }
  destruct (fltb p t) eqn:Hlt.
  - exists [], keys. split; [done|]. split; [|by constructor].
    unfold pebay_faster. by rewrite Hp, Ht.
  - assert (pebay_faster tp pb k = false) as Hk
      by (unfold pebay_faster; by rewrite Hp, Ht).
    destruct (scan_crossover tp pb keys) as [[n|]|e].
    + destruct IH as (l1 & l2 & -> & Hn & Hl1).
      exists (k :: l1), l2. split; [done|]. split; [done|].
      by constructor.
    + constructor; [|done]. split; [done|].
      split; apply elem_of_dom; eauto.
    + destruct IH as [-> (m & Hm & Hor)]. split; [done|].
      exists m. split; [set_solver|done].
Qed.

(** On keys in ascending order, a key before the one the loop stops at is
    smaller, so no smaller key has the online timing strictly lower. *)
Lemma scan_crossover_first tp pb keys n :
  StronglySorted Z.le keys →
  scan_crossover tp pb keys = Return (Some n) →
  n ∈ keys ∧ pebay_faster tp pb n = true ∧
  ∀ m, m ∈ keys → m < n → pebay_faster tp pb m = false.
Proof.
  intros Hsorted Hscan. pose proof (scan_crossover_spec tp pb keys) as Hspec.
  rewrite Hscan in Hspec. destruct Hspec as (l1 & l2 & -> & Hn & Hl1).
  split; [set_solver|]. split; [done|]. intros m Hm Hlt.
  apply StronglySorted_app in Hsorted as (_ & _ & Hs2).
  apply StronglySorted_cons in Hs2 as [Hge _].
  rewrite Forall_forall in Hl1, Hge.
  apply elem_of_app in Hm as [Hm|Hm]; [by apply Hl1|].
  apply elem_of_cons in Hm as [->|Hm]; [lia|].
  specialize (Hge m Hm). lia.
Qed.

Lemma find_crossover_total tp pb :
  dom tp = dom pb → tp ≠ ∅ → ∃ n, _find_crossover tp pb = Return n.
Proof.
  intros Hdom Hne. unfold _find_crossover.
  pose proof (scan_crossover_spec tp pb (sorted_keys tp)) as Hspec.
  destruct (scan_crossover tp pb (sorted_keys tp)) as [[n|]|e]; [by eauto| |].
  - destruct (py_max_spec (elements (dom tp))) as (n & -> & _); [|by eauto].
    intros Hnil. apply Hne, dom_empty_inv_L. by apply elements_empty_inv, leibniz_equiv in Hnil.
  - destruct Hspec as [_ (m & Hm%elem_of_sorted_keys & [Hno|Hno])];
      [rewrite <-Hdom in Hno|]; done.
Qed.

(** C1, as amended.  For tables over the same, non-empty set of row
    lengths the search returns a tested length [n]: the smallest tested
    length at which the online timing is strictly less than the two-pass
    timing, or, when there is no such length, the largest tested
    length. *)
Theorem find_crossover_first_or_largest tp pb :
  dom tp = dom pb → tp ≠ ∅ →
  ∃ n, _find_crossover tp pb = Return n ∧ n ∈ dom tp ∧
    ((pebay_faster tp pb n = true ∧
      ∀ m, m ∈ dom tp → m < n → pebay_faster tp pb m = false) ∨
     ((∀ m, m ∈ dom tp → pebay_faster tp pb m = false) ∧
      ∀ m, m ∈ dom tp → m ≤ n)).
Proof.
  intros Hdom Hne. destruct (find_crossover_total tp pb Hdom Hne) as [n Hn].
  exists n. split; [done|]. unfold _find_crossover in Hn.
  destruct (scan_crossover tp pb (sorted_keys tp)) as [[n'|]|e] eqn:Hscan;
    [| |done].
  - injection Hn as ->.
    destruct (scan_crossover_first tp pb (sorted_keys tp) n) as (Hin & Hw & Hfirst);
      [apply sorted_keys_sorted|done|].
    split; [by apply elem_of_sorted_keys|]. left. split; [done|].
    intros m Hm. apply Hfirst. by apply elem_of_sorted_keys.
  - pose proof (scan_crossover_spec tp pb (sorted_keys tp)) as Hspec.
    rewrite Hscan in Hspec. rewrite Forall_forall in Hspec.
    apply py_max_return in Hn as [Hin Hmax].
    split; [by apply elem_of_elements|]. right. split.
    + intros m Hm. by apply Hspec, elem_of_sorted_keys.
    + intros m Hm. by apply Hmax, elem_of_elements.
Qed.

(** C9, as amended.  The search raises no [ZeroDivisionError], whatever
    the measured durations are; the loop never stops at a length where the
    two timings are equal; and the search returns such a length only by
    its default, when that length is the largest tested one and the online
    timing is strictly lower at no tested length. *)
Theorem find_crossover_no_division_and_ties tp pb :
  _find_crossover tp pb ≠ Raise ZeroDivisionError ∧
  ∀ n x, pb !! n = Some x → tp !! n = Some x →
    (∀ keys, scan_crossover tp pb keys ≠ Return (Some n)) ∧
    (_find_crossover tp pb = Return n →
      (∀ m, m ∈ dom tp → pebay_faster tp pb m = false) ∧
      (∀ m, m ∈ dom tp → m ≤ n)).
Proof.
  assert (∀ n x keys, pb !! n = Some x → tp !! n = Some x →
            scan_crossover tp pb keys ≠ Return (Some n)) as Htie.
  { intros n x keys Hp Ht Hscan.
    pose proof (scan_crossover_spec tp pb keys) as Hspec.
    rewrite Hscan in Hspec. destruct Hspec as (_ & _ & _ & Hw & _).
    unfold pebay_faster in Hw. rewrite Hp, Ht, fltb_irrefl in Hw. done. }
  split.
  - unfold _find_crossover.
    pose proof (scan_crossover_spec tp pb (sorted_keys tp)) as Hspec.
    destruct (scan_crossover tp pb (sorted_keys tp)) as [[n|]|e]; [done| |].
    + by destruct (elements (dom tp)).
    + destruct Hspec as [-> _]. done.
  - intros n x Hp Ht. split; [by eauto|]. intros Hn.
    unfold _find_crossover in Hn.
    destruct (scan_crossover tp pb (sorted_keys tp)) as [[n'|]|e] eqn:Hscan;
      [| |done].
    + injection Hn as ->. by destruct (Htie n x (sorted_keys tp)).
    + pose proof (scan_crossover_spec tp pb (sorted_keys tp)) as Hspec.
      rewrite Hscan in Hspec. rewrite Forall_forall in Hspec.
      apply py_max_return in Hn as [_ Hmax]. split.
      * intros m Hm. by apply Hspec, elem_of_sorted_keys.
      * intros m Hm. by apply Hmax, elem_of_elements.
Qed.
End CrossoverProps.

(** The first example of the specification: the online algorithm wins from
    length 16 on. *)
Example find_crossover_example_16 :
  _find_crossover Examples.two_pass Examples.pebay = Return 16.
Proof. vm_compute. reflexivity. Qed.

(** The second example: the online algorithm never wins, the largest length
    is returned. *)
Example find_crossover_example_32 :
  _find_crossover Examples.two_pass Examples.pebay2 = Return 32.
Proof. vm_compute. reflexivity. Qed.

(** C1 as stated fails on empty tables: they are tables over the same set of
    row lengths, no length has the online timing lower, and the search
    returns nothing: [max] of no keys raises [ValueError]. *)
Lemma find_crossover_empty_raises :
  dom Examples.no_timings = dom Examples.no_timings ∧
  _find_crossover Examples.no_timings Examples.no_timings = Raise ValueError ∧
  ¬ ∃ n, _find_crossover Examples.no_timings Examples.no_timings = Return n.
Proof.
  split; [reflexivity|]. split; [vm_compute; reflexivity|].
  intros [n Hn]. vm_compute in Hn. discriminate Hn.
Qed.

Lemma find_crossover_first_or_largest_witness :
  dom Examples.two_pass = dom Examples.pebay ∧
  Examples.two_pass ≠ ∅ ∧
  ∃ n, _find_crossover Examples.two_pass Examples.pebay = Return n ∧
    n ∈ dom Examples.two_pass ∧
    ((pebay_faster Examples.two_pass Examples.pebay n = true ∧
      ∀ m, m ∈ dom Examples.two_pass → m < n →
           pebay_faster Examples.two_pass Examples.pebay m = false) ∨
     ((∀ m, m ∈ dom Examples.two_pass →
            pebay_faster Examples.two_pass Examples.pebay m = false) ∧
      ∀ m, m ∈ dom Examples.two_pass → m ≤ n)).
Proof.
  assert (dom Examples.two_pass = dom Examples.pebay) as Hdom
    by (vm_compute; reflexivity).
  assert (Examples.two_pass ≠ ∅) as Hne
    by (vm_compute; discriminate).
  split; [exact Hdom|]. split; [exact Hne|].
  exact (find_crossover_first_or_largest Examples.two_pass Examples.pebay
           Hdom Hne).
Defined.

(** C9 as stated fails when the tie is at the largest tested length and the
    online timing is lower nowhere: the timings at 8 are equal and 8 is what
    the search returns. *)
Lemma find_crossover_tie_returned :
  Examples.tied !! 8 = Some (1 # 1)%Q ∧
  _find_crossover Examples.tied Examples.tied = Return 8.
Proof. split; vm_compute; reflexivity. Qed.

Lemma find_crossover_no_division_and_ties_witness :
  Examples.tied !! 8 = Some (1 # 1)%Q ∧
  _find_crossover Examples.tied Examples.tied = Return 8 ∧
  (∀ keys, scan_crossover Examples.tied Examples.tied keys ≠ Return (Some 8)) ∧
  (∀ m, m ∈ dom Examples.tied →
        pebay_faster Examples.tied Examples.tied m = false) ∧
  (∀ m, m ∈ dom Examples.tied → m ≤ 8).
Proof.
  assert (Examples.tied !! 8 = Some (1 # 1)%Q) as Hlook
    by (vm_compute; reflexivity).
  assert (_find_crossover Examples.tied Examples.tied = Return 8) as Hret
    by (vm_compute; reflexivity).
  destruct (find_crossover_no_division_and_ties Examples.tied Examples.tied)
    as [_ Hties].
  destruct (Hties 8 (1 # 1)%Q Hlook Hlook) as [Hscan Hdefault].
  destruct (Hdefault Hret) as [Hnone Hmax].
  split; [exact Hlook|]. split; [exact Hret|]. split; [exact Hscan|].
  split; [exact Hnone|exact Hmax].
Defined.

(** ** The sweep and the synthetic rows *)

Lemma py_range_lookup n (i : nat) :
  (i < Z.to_nat n)%nat → py_range n !! i = Some (Z.of_nat i).
Proof.
  intros Hi. unfold py_range. rewrite list_lookup_fmap, lookup_seq_lt; done.
Qed.

Lemma length_py_range n : length (py_range n) = Z.to_nat n.
Proof. unfold py_range. by rewrite length_fmap, length_seq. Qed.

Lemma elem_of_py_range n i : i ∈ py_range n ↔ 0 ≤ i < n.
Proof.
  unfold py_range. rewrite list_elem_of_fmap. split.
  - intros (k & -> & Hk%elem_of_seq). lia.
  - intros Hi. exists (Z.to_nat i). split; [lia|]. apply elem_of_seq. lia.
Qed.

Lemma row_lengths_unfold :
  row_lengths = (λ k : nat, 8 + 32 * Z.of_nat k) <$> seq 0 64.
Proof. reflexivity. Qed.

(** The sweep holds the lengths 8, 40, 72, ... that do not exceed 2048. *)
Lemma elem_of_row_lengths n :
  n ∈ row_lengths ↔ 8 ≤ n ≤ 2048 ∧ (n - 8) `mod` 32 = 0.
Proof.
  rewrite row_lengths_unfold, list_elem_of_fmap. split.
  - intros (k & -> & Hk%elem_of_seq). split; [lia|].
    replace (8 + 32 * Z.of_nat k - 8) with (Z.of_nat k * 32) by lia.
    apply Z.mod_mul. lia.
  - intros [Hn Hmod]. apply Z.mod_divide in Hmod as [q Hq]; [|lia].
    exists (Z.to_nat q). split; [lia|]. apply elem_of_seq. lia.
Qed.

Lemma row_lengths_ascending (i j : nat) a b :
  row_lengths !! i = Some a → row_lengths !! j = Some b →
  (i < j)%nat → a < b.
Proof.
  rewrite row_lengths_unfold, !list_lookup_fmap.
  intros Ha Hb Hij.
  destruct (seq 0 64 !! i) as [ki|] eqn:Hi; [|done].
  destruct (seq 0 64 !! j) as [kj|] eqn:Hj; [|done].
  apply lookup_seq in Hi as [-> _]. apply lookup_seq in Hj as [-> _].
  simpl in Ha, Hb. injection Ha as <-. injection Hb as <-. lia.
Qed.

Lemma length_synthetic_row n : length (synthetic_row n) = Z.to_nat n.
Proof. unfold synthetic_row. by rewrite length_fmap, length_py_range. Qed.

Lemma synthetic_row_lookup n (i : nat) :
  (i < Z.to_nat n)%nat →
  synthetic_row n !! i = Some (Z.of_nat i `mod` 128 - 64).
Proof.
  intros Hi. unfold synthetic_row.
  by rewrite list_lookup_fmap, py_range_lookup.
Qed.

Lemma synthetic_row_bounds n v : v ∈ synthetic_row n → -64 ≤ v ≤ 63.
Proof.
  unfold synthetic_row. rewrite list_elem_of_fmap.
  intros (i & -> & _). pose proof (Z.mod_pos_bound i 128). lia.
Qed.

Lemma synthetic_row_covers n v :
  128 ≤ n → -64 ≤ v ≤ 63 → v ∈ synthetic_row n.
Proof.
  intros Hn Hv. unfold synthetic_row. apply list_elem_of_fmap.
  exists (v + 64). split.
  - rewrite Z.mod_small; lia.
  - apply elem_of_py_range. lia.
Qed.

(** ** The benchmark harness *)

Section HarnessProps.
Context {F : Type} `{PyFloat F} {Fn : Type}.
Implicit Types (w : world (F:=F) (Fn:=Fn)) (func : Fn).

Lemma only_calls_refl w : only_calls w w [].
Proof. unfold only_calls. by rewrite app_nil_r. Qed.

Lemma only_calls_trans w1 w2 w3 cs1 cs2 :
  only_calls w1 w2 cs1 → only_calls w2 w3 cs2 →
  only_calls w1 w3 (cs1 ++ cs2).
Proof.
  unfold only_calls. intros (?&?&?&?&?&?&?) (?&?&?&?&?&?&?).
  rewrite app_assoc. repeat split; congruence.
Qed.

(** The inner loop returns, after [k] invocations on the row. *)
Lemma time_calls_spec func row k durations w :
  ∃ durations' w',
    time_calls func row k durations w = (Return durations', w') ∧
    only_calls w w' (replicate k (func, row)).
Proof.
  revert durations w. induction k as [|k IH]; intros durations w; simpl.
  - exists durations, w. split; [done|]. apply only_calls_refl.
  - unfold bind at 1. simpl. unfold bind at 1. simpl.
    unfold bind at 1. simpl.
    match goal with
    | |- ∃ _ _, time_calls _ _ _ ?ds ?w0 = _ ∧ _ =>
        destruct (IH ds w0) as (ds' & w' & Hrun & Hcalls)
    end.
    exists ds', w'. split; [done|].
    destruct Hcalls as (?&?&?&?&?&?&Hc). simpl in *.
    unfold only_calls. rewrite Hc, <-app_assoc. done.
Qed.

(** One round of the outer loop: with a non-zero repeat count it stores an
    average under the length, with a zero one the division raises. *)
Lemma benchmark_length_spec func repeat results n w :
  (repeat ≠ 0 →
    ∃ avg w', benchmark_length func repeat results n w
                = (Return (<[n := avg]> results), w') ∧
              only_calls w w'
                (replicate (Z.to_nat repeat) (func, synthetic_row n))) ∧
  (repeat = 0 →
    benchmark_length func repeat results n w = (Raise ZeroDivisionError, w)).
Proof.
  unfold benchmark_length. split.
  - intros Hrep.
    destruct (time_calls_spec func (synthetic_row n) (Z.to_nat repeat) [] w)
      as (ds & w' & Hrun & Hcalls).
    unfold bind at 1. rewrite Hrun. unfold bind, lift, py_truediv, ret.
    destruct (decide (repeat = 0)); [done|]. eauto.
  - intros ->. simpl. unfold bind, lift, py_truediv, ret. simpl. done.
Qed.

Lemma harness_calls_zero func lengths : harness_calls func lengths 0 = [].
Proof. unfold harness_calls. induction lengths; simpl; done. Qed.

Lemma for_each_benchmark_spec func repeat lengths results w :
  repeat ≠ 0 →
  ∃ table w',
    for_each (benchmark_length func repeat) results lengths w
      = (Return table, w') ∧
    dom table = dom results ∪ list_to_set lengths ∧
    only_calls w w' (harness_calls func lengths repeat).
Proof.
  intros Hrep. revert results w.
  induction lengths as [|n lengths IH]; intros results w; simpl.
  - exists results, w. split; [done|]. split; [set_solver|].
    apply only_calls_refl.
  - destruct (benchmark_length_spec func repeat results n w) as [Hstep _].
    destruct (Hstep Hrep) as (avg & w1 & Hrun & Hcalls).
    unfold bind at 1. rewrite Hrun.
    destruct (IH (<[n := avg]> results) w1) as (table & w' & Hrest & Hdom & Hc).
    exists table, w'. split; [done|]. split.
    + rewrite Hdom, dom_insert_L. set_solver.
    + unfold harness_calls in *. simpl. by eapply only_calls_trans.
Qed.

(** With a non-zero repeat count the harness returns a table over exactly
    the lengths it was given. *)
Lemma run_benchmark_returns func lengths repeat w :
  repeat ≠ 0 →
  ∃ table w',
    _run_benchmark func lengths repeat w = (Return table, w') ∧
    dom table = list_to_set lengths ∧
    only_calls w w' (harness_calls func lengths repeat).
Proof.
  intros Hrep. unfold _run_benchmark.
  destruct (for_each_benchmark_spec func repeat lengths ∅ w Hrep)
    as (table & w' & Hrun & Hdom & Hc).
  exists table, w'. split; [done|]. split; [|done].
  rewrite Hdom, dom_empty_L. set_solver.
Qed.

(** Whatever the repeat count, the callable is invoked on the synthetic
    rows of the requested lengths and on nothing else. *)
Lemma run_benchmark_calls func lengths repeat w :
  only_calls w (_run_benchmark func lengths repeat w).2
    (harness_calls func lengths repeat).
Proof.
  destruct (decide (repeat = 0)) as [->|Hrep].
  - rewrite harness_calls_zero. unfold _run_benchmark.
    destruct lengths as [|n lengths]; cbn [for_each];
      [apply only_calls_refl|].
    destruct (benchmark_length_spec func 0 ∅ n w) as [_ Hraise].
    unfold bind at 1. rewrite Hraise by done. apply only_calls_refl.
  - destruct (run_benchmark_returns func lengths repeat w Hrep)
      as (table & w' & -> & _ & Hc). done.
Qed.

(** C3, as amended.  For every requested length [n] the harness invokes
    the callable, [repeat] times, on one fixed row: the row of length [n]
    whose value at index [i] is [i mod 128 - 64].  Its values cycle
    through -64 .. 63, all of which occur once [n] reaches 128. *)
Theorem run_benchmark_synthetic_rows func lengths repeat w :
  calls (_run_benchmark func lengths repeat w).2
    = calls w ++
      flat_map (λ n, replicate (Z.to_nat repeat) (func, synthetic_row n))
        lengths ∧
  ∀ n,
    length (synthetic_row n) = Z.to_nat n ∧
    (∀ i : nat, (i < Z.to_nat n)%nat →
       synthetic_row n !! i = Some (Z.of_nat i `mod` 128 - 64)) ∧
    (∀ v, v ∈ synthetic_row n → -64 ≤ v ≤ 63) ∧
    (128 ≤ n → ∀ v, -64 ≤ v ≤ 63 → v ∈ synthetic_row n).
Proof.
  split.
  - by destruct (run_benchmark_calls func lengths repeat w)
      as (_&_&_&_&_&_&?).
  - intros n. split; [apply length_synthetic_row|].
    split; [apply synthetic_row_lookup|].
    split; [apply synthetic_row_bounds|].
    intros Hn v Hv. by apply synthetic_row_covers.
Qed.
End HarnessProps.

(** ** The tuner *)

Section TunerProps.
Context {F : Type} `{PyFloat F} {Fn : Type} (digest : identity → string).
Implicit Types (w : world (F:=F) (Fn:=Fn)) (twopass_fn pebay_fn : Fn).

Abbreviation announcement :=
  "Running algorithm benchmarks (first use or system changed)...".

Local Opaque row_lengths synthetic_row.

Lemma config_file_set_config_file c w :
  config_file (set_config_file c w) = c.
Proof. reflexivity. Qed.

Lemma read_error_set_config_file c w :
  read_error (set_config_file c w) = read_error w.
Proof. reflexivity. Qed.

Lemma ident_set_config_file c w : ident (set_config_file c w) = ident w.
Proof. reflexivity. Qed.

(** The lookup never raises and leaves the world as it is. *)
Lemma load_cached_pure system_id w :
  ∃ cached, load_cached system_id w = (Return cached, w).
Proof.
  unfold load_cached, try_except, bind, json_load_config, lift, ret.
  destruct (read_error w); [by eauto|].
  destruct (config_file w) as [[text|v]|]; [by eauto| |by eauto].
  destruct (dict_get v "system_id") as [stored|e]; [|by eauto].
  destruct (eq_str stored system_id && dict_contains v "threshold");
    [|by eauto].
  destruct (dict_getitem v "threshold"); by eauto.
Qed.

Lemma eq_str_true (v : json (F:=F)) s : eq_str v s = true → v = JStr s.
Proof.
  destruct v; simpl; try done. intros Heq%String.eqb_eq. by subst.
Qed.

(** A file in one of the rejected states makes the lookup fall through. *)
Lemma load_cached_unusable system_id w :
  cache_unusable system_id w → load_cached system_id w = (Return None, w).
Proof.
  intros Hbad.
  unfold load_cached, try_except, bind, json_load_config, lift, ret.
  destruct (read_error w) as [msg|] eqn:Hread; [done|].
  destruct Hbad as [Hfile|msg Herr|text Hfile|v Hfile Hv|items Hfile Hthr
                   |items Hfile Hsys].
  - by rewrite Hfile.
  - congruence.
  - by rewrite Hfile.
  - rewrite Hfile. destruct v; simpl; try done. by destruct (Hv items).
  - rewrite Hfile. simpl. rewrite Hthr. simpl. by rewrite andb_false_r.
  - rewrite Hfile. simpl.
    destruct (eq_str (default JNull (assoc "system_id" items)) system_id)
      eqn:Heq; [|done].
    apply eq_str_true in Heq. destruct (assoc "system_id" items); simpl in *;
      [|done]. by subst.
Qed.

Lemma cache_unusable_benchmarks force_retune w :
  cache_unusable (digest (ident w)) w → benchmarks digest force_retune w.
Proof.
  intros Hbad. right. right. by rewrite load_cached_unusable.
Qed.

(** When the call does not return from the cache, it is the benchmark and
    the attempt to save. *)
Lemma get_optimal_threshold_miss twopass_fn pebay_fn force_retune w :
  benchmarks digest force_retune w →
  get_optimal_threshold digest twopass_fn pebay_fn force_retune w
    = benchmark_and_save twopass_fn pebay_fn (digest (ident w)) w.
Proof.
  intros Hmiss.
  unfold get_optimal_threshold, bind at 1 2 3, _system_fingerprint.
  destruct force_retune; [done|]. unfold path_exists.
  destruct Hmiss as [?|[Hnone|Hfall]]; [done| |].
  - rewrite Hnone. rewrite bool_decide_eq_false_2; [done|].
    by intros [? ?].
  - case_bool_decide; [|done].
    destruct (load_cached_pure (digest (ident w)) w) as [cached Hload].
    rewrite Hload in Hfall |- *. simpl in Hfall. by injection Hfall as ->.
Qed.

(** When the lookup finds a value, the call returns it and does nothing
    else. *)
Lemma get_optimal_threshold_hit twopass_fn pebay_fn w v :
  is_Some (config_file w) →
  load_cached (digest (ident w)) w = (Return (Some v), w) →
  get_optimal_threshold digest twopass_fn pebay_fn false w = (Return v, w).
Proof.
  intros Hfile Hload.
  unfold get_optimal_threshold, bind at 1 2 3, _system_fingerprint,
    path_exists.
  rewrite bool_decide_eq_true_2 by done. by rewrite Hload.
Qed.

Lemma row_lengths_nonempty : 8 ∈ row_lengths.
Proof. apply elem_of_row_lengths. split; [lia|done]. Qed.

(** The benchmark returns a threshold, the crossover of the tables it
    measured, whatever becomes of the attempt to save it. *)
Lemma benchmark_and_save_spec twopass_fn pebay_fn system_id w :
  ∃ twopass pebay threshold w2 w3,
    benchmark_and_save twopass_fn pebay_fn system_id w
      = (Return (JInt threshold), w3) ∧
    fresh_threshold twopass_fn pebay_fn (print announcement w).2
      twopass pebay threshold w2 ∧
    only_calls (print announcement w).2 w2
      (harness_calls twopass_fn row_lengths 5 ++
       harness_calls pebay_fn row_lengths 5) ∧
    w3 = match write_error w with
         | None =>
             set_config_file
               (Some (Encoded
                        (config_record threshold system_id twopass pebay)))
               w2
         | Some (OpenFails msg) =>
             set_stdout
               (stdout w2 ++ ["Warning: Failed to save config file: " +:+ msg])
               w2
         | Some (DumpFails msg partial) =>
             set_stdout
               (stdout w2 ++ ["Warning: Failed to save config file: " +:+ msg])
               (set_config_file (Some (Malformed partial)) w2)
         end.
Proof.
  set (w0 := (print announcement w).2).
  destruct (run_benchmark_returns twopass_fn row_lengths 5 w0)
    as (twopass & w1 & Hrun1 & Hdom1 & Hc1); [done|].
  destruct (run_benchmark_returns pebay_fn row_lengths 5 w1)
    as (pebay & w2 & Hrun2 & Hdom2 & Hc2); [done|].
  destruct (find_crossover_total twopass pebay) as [threshold Hcross].
  { by rewrite Hdom1, Hdom2. }
  { intros ->. pose proof row_lengths_nonempty as Hin.
    apply (elem_of_list_to_set (C:=gset Z)) in Hin.
    rewrite <-Hdom1, dom_empty_L in Hin. by apply not_elem_of_empty in Hin. }
  pose proof (only_calls_trans _ _ _ _ _ Hc1 Hc2) as Hc.
  assert (write_error w2 = write_error w) as Hwerr.
  { destruct Hc as (_&_&_&->&_). done. }
  eexists twopass, pebay, threshold, w2, _.
  split; [|split; [|split; [exact Hc|reflexivity]]].
  2:{ exists w1. split; [exact Hrun1|]. split; [exact Hrun2|exact Hcross]. }
  unfold benchmark_and_save, bind at 1.
  change (print announcement w) with (Return (), w0).
  unfold bind at 1. rewrite Hrun1. unfold bind at 1. rewrite Hrun2.
  unfold bind at 1, lift at 1. rewrite Hcross.
  unfold bind, try_except, json_dump_config, print, ret. rewrite Hwerr.
  destruct (write_error w) as [[msg|msg partial]|]; reflexivity.
Qed.

Lemma benchmark_and_save_calls twopass_fn pebay_fn w w2 w3 :
  only_calls (print announcement w).2 w2
    (harness_calls twopass_fn row_lengths 5 ++
     harness_calls pebay_fn row_lengths 5) →
  calls w3 = calls w2 →
  calls w3 = calls w ++ harness_calls twopass_fn row_lengths 5 ++
             harness_calls pebay_fn row_lengths 5.
Proof. intros (_&_&_&_&_&_&Hc) ->. exact Hc. Qed.

(** C2.  When the call benchmarks, the callables are invoked on the rows
    of the sweep and on nothing else, five times a length, the two-pass
    callable first; and the sweep is the ascending sequence of the lengths
    8, 8 + 32, 8 + 64, ... that do not exceed 2048. *)
Theorem benchmark_sweep twopass_fn pebay_fn force_retune w :
  benchmarks digest force_retune w →
  calls (get_optimal_threshold digest twopass_fn pebay_fn force_retune w).2
    = calls w ++ harness_calls twopass_fn row_lengths 5 ++
      harness_calls pebay_fn row_lengths 5 ∧
  (∀ n, n ∈ row_lengths ↔ 8 ≤ n ≤ 2048 ∧ (n - 8) `mod` 32 = 0) ∧
  (∀ (i j : nat) a b,
     row_lengths !! i = Some a → row_lengths !! j = Some b →
     (i < j)%nat → a < b).
Proof.
  intros Hmiss. split; [|split; [apply elem_of_row_lengths|
                                 apply row_lengths_ascending]].
  rewrite get_optimal_threshold_miss by done.
  destruct (benchmark_and_save_spec twopass_fn pebay_fn (digest (ident w)) w)
    as (twopass & pebay & threshold & w2 & w3 & -> & _ & Hc & ->).
  eapply benchmark_and_save_calls; [exact Hc|].
  simpl. by destruct (write_error w) as [[?|??]|].
Qed.

(** The states of the cache file that the lookup rejects.  When the file is
    missing, cannot be opened, is not JSON, is not a JSON object, has no
    "threshold" key, or stores another fingerprint than the fresh one, the
    call does not raise, whether the save succeeds or not: it benchmarks and
    returns the crossover of the tables it has just measured. *)
Lemma unusable_cache_rebenchmarks twopass_fn pebay_fn force_retune w :
  cache_unusable (digest (ident w)) w →
  ∃ twopass pebay threshold w2 w3,
    get_optimal_threshold digest twopass_fn pebay_fn force_retune w
      = (Return (JInt threshold), w3) ∧
    fresh_threshold twopass_fn pebay_fn (print announcement w).2
      twopass pebay threshold w2 ∧
    calls w3 = calls w ++ harness_calls twopass_fn row_lengths 5 ++
               harness_calls pebay_fn row_lengths 5.
Proof.
  intros Hbad.
  rewrite get_optimal_threshold_miss
    by by apply cache_unusable_benchmarks.
  destruct (benchmark_and_save_spec twopass_fn pebay_fn (digest (ident w)) w)
    as (twopass & pebay & threshold & w2 & w3 & Hrun & Hfresh & Hc & Hw3).
  exists twopass, pebay, threshold, w2, w3.
  split; [done|]. split; [done|].
  eapply benchmark_and_save_calls; [exact Hc|].
  rewrite Hw3. by destruct (write_error w) as [[?|??]|].
Qed.

(** C5.  With a working file system, a forced call stores the threshold it
    returns under the fingerprint of the machine; a later unforced call
    that finds this file, can read it and computes the same fingerprint
    returns the same threshold and does nothing else: no callable is
    invoked, nothing is printed, the file stays. *)
Theorem cache_round_trip twopass_fn pebay_fn twopass_fn' pebay_fn' w w' :
  write_error w = None →
  config_file w'
    = config_file (get_optimal_threshold digest twopass_fn pebay_fn true w).2 →
  read_error w' = None →
  digest (ident w') = digest (ident w) →
  ∃ threshold twopass pebay,
    (get_optimal_threshold digest twopass_fn pebay_fn true w).1
      = Return (JInt threshold) ∧
    config_file (get_optimal_threshold digest twopass_fn pebay_fn true w).2
      = Some (Encoded
                (config_record threshold (digest (ident w)) twopass pebay)) ∧
    get_optimal_threshold digest twopass_fn' pebay_fn' false w'
      = (Return (JInt threshold), w').
Proof.
  intros Hwrite Hfile Hread Hsame.
  rewrite get_optimal_threshold_miss in Hfile |- * by (by left).
  destruct (benchmark_and_save_spec twopass_fn pebay_fn (digest (ident w)) w)
    as (twopass & pebay & threshold & w2 & w3 & Hrun & _ & _ & Hw3).
  rewrite Hrun in Hfile |- *. rewrite Hwrite in Hw3. subst w3.
  set (record := config_record threshold (digest (ident w)) twopass pebay)
    in *.
  change (config_file w' = Some (Encoded record)) in Hfile.
  exists threshold, twopass, pebay.
  split; [reflexivity|]. split; [reflexivity|].
  apply get_optimal_threshold_hit; [rewrite Hfile; by eexists|].
  assert (dict_get record "system_id" = Return (JStr (digest (ident w))))
    as Hget by reflexivity.
  assert (dict_contains record "threshold" = true) as Hhas by reflexivity.
  assert (dict_getitem record "threshold" = Return (JInt threshold))
    as Hitem by reflexivity.
  unfold load_cached, try_except, bind, json_load_config, lift, ret.
  rewrite Hread, Hfile, Hsame, Hget, Hhas.
  cbn [eq_str]. rewrite String.eqb_refl. cbn [andb]. by rewrite Hitem.
Qed.

(** C6.  When the write fails in a call that benchmarks, the call still
    returns the crossover of the tables it has just measured; what it
    prints ends with the warning that carries the message of the error,
    and the file is as the failed write left it. *)
Theorem failed_save_still_returns twopass_fn pebay_fn force_retune w failure :
  write_error w = Some failure →
  benchmarks digest force_retune w →
  ∃ twopass pebay threshold w2 w3,
    get_optimal_threshold digest twopass_fn pebay_fn force_retune w
      = (Return (JInt threshold), w3) ∧
    fresh_threshold twopass_fn pebay_fn (print announcement w).2
      twopass pebay threshold w2 ∧
    stdout w3
      = stdout w ++
        [announcement;
         "Warning: Failed to save config file: " +:+ failure_message failure] ∧
    config_file w3
      = match failure with
        | OpenFails _ => config_file w
        | DumpFails _ partial => Some (Malformed partial)
        end.
Proof.
  intros Hwrite Hmiss. rewrite get_optimal_threshold_miss by done.
  destruct (benchmark_and_save_spec twopass_fn pebay_fn (digest (ident w)) w)
    as (twopass & pebay & threshold & w2 & w3 & Hrun & Hfresh & Hc & Hw3).
  exists twopass, pebay, threshold, w2, w3.
  split; [done|]. split; [done|].
  destruct Hc as (_ & Hfile & _ & _ & _ & Hout & _).
  change (config_file w2 = config_file w) in Hfile.
  change (stdout w2 = stdout w ++ [announcement]) in Hout.
  rewrite Hwrite in Hw3. subst w3.
  destruct failure as [msg|msg partial];
    cbn [stdout config_file set_stdout set_config_file failure_message];
    rewrite Hout, <-app_assoc; split; (reflexivity || exact Hfile).
Qed.
End TunerProps.

(** ** The dispatcher *)

Import Main.

Section DispatcherProps.
Context {F : Type} `{PyFloat F}.
Context (compute_moments_twopass compute_moments_pebay
           : list Z → MomentResult (F:=F)).
Implicit Types (data : list (list Z)) (row : list Z) (threshold : Z).

Local Notation algo := (algo compute_moments_twopass compute_moments_pebay).
Local Notation process_row :=
  (process_row compute_moments_twopass compute_moments_pebay).
Local Notation compute_moment_rows :=
  (compute_moment_rows compute_moments_twopass compute_moments_pebay).
Local Notation output_of :=
  (output_of compute_moments_twopass compute_moments_pebay).

Lemma process_row_columns threshold c0 c1 c2 c3 row :
  process_row threshold [c0; c1; c2; c3] row
    = [c0 ++ [output_of threshold 0 row]; c1 ++ [output_of threshold 1 row];
       c2 ++ [output_of threshold 2 row]; c3 ++ [output_of threshold 3 row]].
Proof. reflexivity. Qed.

Lemma foldl_process_row threshold c0 c1 c2 c3 data :
  foldl (process_row threshold) [c0; c1; c2; c3] data
    = [c0 ++ (output_of threshold 0 <$> data);
       c1 ++ (output_of threshold 1 <$> data);
       c2 ++ (output_of threshold 2 <$> data);
       c3 ++ (output_of threshold 3 <$> data)].
Proof.
  revert c0 c1 c2 c3.
  induction data as [|row data IH]; intros c0 c1 c2 c3.
  - simpl. by rewrite !app_nil_r.
  - cbn [foldl]. rewrite process_row_columns, IH.
    by rewrite <-!app_assoc.
Qed.

(** The result, column by column. *)
Lemma compute_moment_rows_columns data threshold :
  compute_moment_rows data threshold
    = (λ i, output_of threshold i <$> data) <$> seq 0 4.
Proof. unfold Main.compute_moment_rows. simpl. apply foldl_process_row. Qed.

Lemma compute_moment_rows_lookup data threshold (i j : nat) row :
  (i < 4)%nat → data !! j = Some row →
  compute_moment_rows data threshold !! i ≫= (.!! j)
    = Some (output_of threshold i row).
Proof.
  intros Hi Hj. rewrite compute_moment_rows_columns.
  rewrite list_lookup_fmap, lookup_seq_lt by done. simpl.
  by rewrite list_lookup_fmap, Hj.
Qed.

(** C7.  The value put out for a row comes from the two-pass accumulator
    when the row is strictly shorter than the threshold, and from the
    online accumulator when its length is the threshold or more. *)
Theorem dispatch_by_length data threshold (i j : nat) row :
  (i < 4)%nat → data !! j = Some row →
  (Z.of_nat (length row) < threshold →
     algo row threshold = compute_moments_twopass ∧
     compute_moment_rows data threshold !! i ≫= (.!! j)
       = Some (round_half_up (moment_at (compute_moments_twopass row) i))) ∧
  (threshold ≤ Z.of_nat (length row) →
     algo row threshold = compute_moments_pebay ∧
     compute_moment_rows data threshold !! i ≫= (.!! j)
       = Some (round_half_up (moment_at (compute_moments_pebay row) i))).
Proof.
  intros Hi Hj.
  rewrite (compute_moment_rows_lookup data threshold i j row Hi Hj).
  unfold output_of, Main.algo.
  split; intros Hlen; case_decide; (done || lia).
Qed.

(** C8.  The result has four sequences, each with one element per row of
    the matrix, in the order of the rows: the first sequence holds the
    means, the second the variances, the third the skewnesses and the
    fourth the kurtoses, each as put out, so that the [j]-th element of
    the [i]-th sequence is the [i]-th moment of the [j]-th row. *)
Theorem compute_moment_rows_shape data threshold :
  compute_moment_rows data threshold
    = [(λ row, round_half_up (mu1 (algo row threshold row))) <$> data;
       (λ row, round_half_up (mu2 (algo row threshold row))) <$> data;
       (λ row, round_half_up (mu3 (algo row threshold row))) <$> data;
       (λ row, round_half_up (mu4 (algo row threshold row))) <$> data] ∧
  length (compute_moment_rows data threshold) = 4%nat ∧
  (∀ column, column ∈ compute_moment_rows data threshold →
             length column = length data) ∧
  (∀ (j : nat) row, data !! j = Some row →
     compute_moment_rows data threshold !! 0%nat ≫= (.!! j)
       = Some (round_half_up (mu1 (algo row threshold row))) ∧
     compute_moment_rows data threshold !! 1%nat ≫= (.!! j)
       = Some (round_half_up (mu2 (algo row threshold row))) ∧
     compute_moment_rows data threshold !! 2%nat ≫= (.!! j)
       = Some (round_half_up (mu3 (algo row threshold row))) ∧
     compute_moment_rows data threshold !! 3%nat ≫= (.!! j)
       = Some (round_half_up (mu4 (algo row threshold row)))) ∧
  (∀ (i j : nat) row, (i < 4)%nat → data !! j = Some row →
     compute_moment_rows data threshold !! i ≫= (.!! j)
       = Some (round_half_up (moment_at (algo row threshold row) i))).
Proof.
  split; [|split; [|split; [|split]]].
  - rewrite compute_moment_rows_columns. reflexivity.
  - by rewrite compute_moment_rows_columns, length_fmap, length_seq.
  - intros column. rewrite compute_moment_rows_columns, list_elem_of_fmap.
    intros (i & -> & _). by rewrite length_fmap.
  - intros j row Hj.
    rewrite !(compute_moment_rows_lookup data threshold _ j row) by (lia || done).
    done.
  - intros i j row Hi Hj. by apply compute_moment_rows_lookup.
Qed.

(** C10.  Every value of the four sequences is what the two-decimal format
    of a raw moment reads back as: [float(f"{m:.2f}")] for the moment [m]
    that the selected accumulator computed for a row of the matrix. *)
Theorem compute_moment_rows_rounded data threshold (i : nat) column v :
  compute_moment_rows data threshold !! i = Some column →
  v ∈ column →
  ∃ row, row ∈ data ∧
         v = float_of_str
               (format_2f (moment_at (algo row threshold row) i)).
Proof.
  rewrite compute_moment_rows_columns, list_lookup_fmap.
  intros Hcol Hv. destruct (seq 0 4 !! i) as [i'|] eqn:Hi; [|done].
  apply lookup_seq in Hi as [-> _]. simpl in Hcol. injection Hcol as <-.
  apply list_elem_of_fmap in Hv as (row & -> & Hrow). by exists row.
Qed.
End DispatcherProps.

(** * Checks on concrete inputs *)

(** ** The harness *)

(** C3 as stated fails: the rows never hold 127 or -128, whatever the
    length; at length 256, two full cycles, both are absent. *)
Lemma synthetic_row_misses_int8_extremes :
  127 ∉ synthetic_row 256 ∧ -128 ∉ synthetic_row 256 ∧
  ¬ ∃ n, 127 ∈ synthetic_row n ∨ -128 ∈ synthetic_row n.
Proof.
  split; [|split].
  - intros Hin%synthetic_row_bounds. lia.
  - intros Hin%synthetic_row_bounds. lia.
  - intros [n [Hin%synthetic_row_bounds|Hin%synthetic_row_bounds]]; lia.
Qed.

Lemma run_benchmark_synthetic_rows_witness :
  calls (_run_benchmark true [8; 40] 2 Examples.first_use).2
    = calls Examples.first_use ++
      flat_map (λ n, replicate (Z.to_nat 2) (true, synthetic_row n)) [8; 40] ∧
  length (synthetic_row 256) = Z.to_nat 256 ∧
  (3 < Z.to_nat 256)%nat ∧
  synthetic_row 256 !! 3%nat = Some (Z.of_nat 3 `mod` 128 - 64) ∧
  128 ≤ 256 ∧ -64 ≤ 63 ≤ 63 ∧ 63 ∈ synthetic_row 256.
Proof.
  destruct (run_benchmark_synthetic_rows (F:=Q) true [8; 40] 2
              Examples.first_use) as [Hcalls Hrows].
  destruct (Hrows 256) as (Hlen & Hlookup & _ & Hcover).
  assert (3 < Z.to_nat 256)%nat as Hi by lia.
  assert (128 ≤ 256) as Hn by lia.
  assert (-64 ≤ 63 ≤ 63) as Hv by lia.
  split; [exact Hcalls|]. split; [exact Hlen|]. split; [exact Hi|].
  split; [exact (Hlookup 3%nat Hi)|]. split; [exact Hn|].
  split; [exact Hv|exact (Hcover Hn 63 Hv)].
Defined.

(** ** The tuner *)

(** On first use the threshold comes from the benchmark and is stored. *)
Example first_use_threshold :
  (get_optimal_threshold Examples.digest true false false
     Examples.first_use).1 = Return (JInt 2024).
Proof. vm_compute. reflexivity. Qed.

Lemma benchmark_sweep_witness :
  benchmarks Examples.digest false Examples.first_use ∧
  calls (get_optimal_threshold Examples.digest true false false
           Examples.first_use).2
    = calls Examples.first_use ++ harness_calls true row_lengths 5 ++
      harness_calls false row_lengths 5 ∧
  (∀ n, n ∈ row_lengths ↔ 8 ≤ n ≤ 2048 ∧ (n - 8) `mod` 32 = 0) ∧
  (∀ (i j : nat) a b,
     row_lengths !! i = Some a → row_lengths !! j = Some b →
     (i < j)%nat → a < b).
Proof.
  assert (benchmarks Examples.digest false Examples.first_use) as Hmiss
    by (right; left; reflexivity).
  split; [exact Hmiss|].
  exact (benchmark_sweep Examples.digest true false false
           Examples.first_use Hmiss).
Defined.

(** C4, where the code departs from it.  The file holds a record of this
    machine that does not fit the schema: it has the fresh fingerprint and a
    "threshold" entry, but the threshold is the string "fast" and the timing
    tables are missing.  The call does not re-benchmark: it returns the
    string, which is no integer, invokes no callable, prints nothing and
    leaves the file as it is. *)
Lemma text_threshold_returned :
  config_file Examples.text_threshold
    = Some (Encoded (JObj [("threshold", JStr "fast");
                           ("system_id",
                            JStr (Examples.digest (ident Examples.text_threshold)))])) ∧
  get_optimal_threshold Examples.digest true false false
    Examples.text_threshold
    = (Return (JStr "fast"), Examples.text_threshold) ∧
  (∀ threshold : Z,
     (get_optimal_threshold Examples.digest true false false
        Examples.text_threshold).1 ≠ Return (JInt threshold)) ∧
  calls Examples.text_threshold = [] ∧ stdout Examples.text_threshold = [].
Proof.
  assert (get_optimal_threshold Examples.digest true false false
            Examples.text_threshold
          = (Return (JStr "fast"), Examples.text_threshold)) as Hrun
    by (vm_compute; reflexivity).
  split; [vm_compute; reflexivity|]. split; [exact Hrun|].
  split; [|split; reflexivity].
  intros threshold. rewrite Hrun. simpl. discriminate.
Qed.

Lemma unusable_cache_rebenchmarks_witness :
  cache_unusable (Examples.digest (ident Examples.broken_json))
    Examples.broken_json ∧
  ∃ twopass pebay threshold w2 w3,
    get_optimal_threshold Examples.digest true false false
      Examples.broken_json = (Return (JInt threshold), w3) ∧
    fresh_threshold true false
      (print "Running algorithm benchmarks (first use or system changed)..."
         Examples.broken_json).2 twopass pebay threshold w2 ∧
    calls w3 = calls Examples.broken_json ++ harness_calls true row_lengths 5 ++
               harness_calls false row_lengths 5.
Proof.
  assert (cache_unusable (Examples.digest (ident Examples.broken_json))
            Examples.broken_json) as Hbad
    by (apply cache_corrupt with (text := "{broken json"); reflexivity).
  split; [exact Hbad|].
  exact (unusable_cache_rebenchmarks Examples.digest true false false
           Examples.broken_json Hbad).
Defined.

Lemma cache_round_trip_witness :
  write_error Examples.first_use = None ∧
  config_file
    (set_config_file
       (config_file (get_optimal_threshold Examples.digest true false true
                       Examples.first_use).2)
       Examples.first_use)
    = config_file (get_optimal_threshold Examples.digest true false true
                     Examples.first_use).2 ∧
  read_error
    (set_config_file
       (config_file (get_optimal_threshold Examples.digest true false true
                       Examples.first_use).2)
       Examples.first_use) = None ∧
  ∃ threshold twopass pebay,
    (get_optimal_threshold Examples.digest true false true
       Examples.first_use).1 = Return (JInt threshold) ∧
    config_file (get_optimal_threshold Examples.digest true false true
                   Examples.first_use).2
      = Some (Encoded
                (config_record threshold
                   (Examples.digest (ident Examples.first_use))
                   twopass pebay)) ∧
    get_optimal_threshold Examples.digest false true false
      (set_config_file
         (config_file (get_optimal_threshold Examples.digest true false true
                         Examples.first_use).2)
         Examples.first_use)
      = (Return (JInt threshold),
         set_config_file
           (config_file (get_optimal_threshold Examples.digest true false true
                           Examples.first_use).2)
           Examples.first_use).
Proof.
  pose proof (eq_refl : write_error Examples.first_use = None) as Hwrite.
  pose proof (config_file_set_config_file
                (config_file (get_optimal_threshold Examples.digest true false
                                true Examples.first_use).2)
                Examples.first_use) as Hfile.
  pose proof (read_error_set_config_file
                (config_file (get_optimal_threshold Examples.digest true false
                                true Examples.first_use).2)
                Examples.first_use) as Hread.
  pose proof (ident_set_config_file
                (config_file (get_optimal_threshold Examples.digest true false
                                true Examples.first_use).2)
                Examples.first_use) as Hident.
  split; [exact Hwrite|]. split; [exact Hfile|]. split; [exact Hread|].
  exact (cache_round_trip Examples.digest true false false true
           Examples.first_use _ Hwrite Hfile Hread
           (f_equal Examples.digest Hident)).
Defined.

Lemma failed_save_still_returns_witness :
  write_error Examples.read_only = Some (OpenFails "Permission denied") ∧
  benchmarks Examples.digest true Examples.read_only ∧
  ∃ twopass pebay threshold w2 w3,
    get_optimal_threshold Examples.digest true false true Examples.read_only
      = (Return (JInt threshold), w3) ∧
    fresh_threshold true false
      (print "Running algorithm benchmarks (first use or system changed)..."
         Examples.read_only).2 twopass pebay threshold w2 ∧
    stdout w3
      = stdout Examples.read_only ++
        ["Running algorithm benchmarks (first use or system changed)...";
         "Warning: Failed to save config file: " +:+
         failure_message (OpenFails "Permission denied")] ∧
    config_file w3 = config_file Examples.read_only.
Proof.
  assert (write_error Examples.read_only
            = Some (OpenFails "Permission denied")) as Hwrite by reflexivity.
  assert (benchmarks Examples.digest true Examples.read_only) as Hmiss
    by (left; reflexivity).
  split; [exact Hwrite|]. split; [exact Hmiss|].
  exact (failed_save_still_returns Examples.digest true false true
           Examples.read_only (OpenFails "Permission denied") Hwrite Hmiss).
Defined.

(** ** The dispatcher *)

(** The example of the specification: threshold 10 sends both rows of
    length 3 to the two-pass accumulator; the means are 2 and 5. *)
Example compute_moment_rows_example :
  compute_moment_rows Examples.twopass_stand_in Examples.pebay_stand_in
    Examples.matrix 10
  = [[(200 # 100)%Q; (500 # 100)%Q]; [(67 # 100)%Q; (67 # 100)%Q];
     [(100 # 100)%Q; (100 # 100)%Q]; [(100 # 100)%Q; (100 # 100)%Q]].
Proof. vm_compute. reflexivity. Qed.

(** At threshold 3 the rows are not shorter than the threshold: the online
    accumulator is used, as its mark shows. *)
Example compute_moment_rows_at_threshold :
  compute_moment_rows Examples.twopass_stand_in Examples.pebay_stand_in
    Examples.matrix 3
  = [[(200 # 100)%Q; (500 # 100)%Q]; [(67 # 100)%Q; (67 # 100)%Q];
     [(200 # 100)%Q; (200 # 100)%Q]; [(200 # 100)%Q; (200 # 100)%Q]].
Proof. vm_compute. reflexivity. Qed.

Lemma dispatch_by_length_witness :
  (2 < 4)%nat ∧ Examples.matrix !! 1%nat = Some [4; 5; 6] ∧
  Z.of_nat (length [4; 5; 6]) < 10 ∧ 3 ≤ Z.of_nat (length [4; 5; 6]) ∧
  compute_moment_rows Examples.twopass_stand_in Examples.pebay_stand_in
    Examples.matrix 10 !! 2%nat ≫= (.!! 1%nat)
    = Some (round_half_up (moment_at (Examples.twopass_stand_in [4; 5; 6]) 2)) ∧
  compute_moment_rows Examples.twopass_stand_in Examples.pebay_stand_in
    Examples.matrix 3 !! 2%nat ≫= (.!! 1%nat)
    = Some (round_half_up (moment_at (Examples.pebay_stand_in [4; 5; 6]) 2)).
Proof.
  assert (2 < 4)%nat as Hi by lia.
  assert (Examples.matrix !! 1%nat = Some [4; 5; 6]) as Hj by reflexivity.
  assert (Z.of_nat (length [4; 5; 6]) < 10) as Hshort by (simpl; lia).
  assert (3 ≤ Z.of_nat (length [4; 5; 6])) as Hlong by (simpl; lia).
  destruct (dispatch_by_length Examples.twopass_stand_in
              Examples.pebay_stand_in Examples.matrix 10 2 1 [4; 5; 6] Hi Hj)
    as [Htwopass _].
  destruct (dispatch_by_length Examples.twopass_stand_in
              Examples.pebay_stand_in Examples.matrix 3 2 1 [4; 5; 6] Hi Hj)
    as [_ Hpebay].
  split; [exact Hi|]. split; [exact Hj|]. split; [exact Hshort|].
  split; [exact Hlong|].
  split; [exact (proj2 (Htwopass Hshort))|exact (proj2 (Hpebay Hlong))].
Defined.

(** Accumulators whose four moments all differ and depend on the row: each
    of the four sequences carries its own moment, row by row. *)
Example compute_moment_rows_four_moments :
  compute_moment_rows Examples.twopass_four Examples.pebay_four
    Examples.matrix 10
  = [[(200 # 100)%Q; (500 # 100)%Q]; [(67 # 100)%Q; (67 # 100)%Q];
     [(300 # 100)%Q; (600 # 100)%Q]; [(500 # 100)%Q; (2600 # 100)%Q]].
Proof. vm_compute. reflexivity. Qed.

Lemma compute_moment_rows_shape_witness :
  Examples.matrix !! 1%nat = Some [4; 5; 6] ∧
  compute_moment_rows Examples.twopass_four Examples.pebay_four
    Examples.matrix 10
    = [(λ row, round_half_up
                 (mu1 (algo Examples.twopass_four Examples.pebay_four
                         row 10 row))) <$> Examples.matrix;
       (λ row, round_half_up
                 (mu2 (algo Examples.twopass_four Examples.pebay_four
                         row 10 row))) <$> Examples.matrix;
       (λ row, round_half_up
                 (mu3 (algo Examples.twopass_four Examples.pebay_four
                         row 10 row))) <$> Examples.matrix;
       (λ row, round_half_up
                 (mu4 (algo Examples.twopass_four Examples.pebay_four
                         row 10 row))) <$> Examples.matrix] ∧
  length (compute_moment_rows Examples.twopass_four Examples.pebay_four
            Examples.matrix 10) = 4%nat ∧
  compute_moment_rows Examples.twopass_four Examples.pebay_four
    Examples.matrix 10 !! 0%nat ≫= (.!! 1%nat)
    = Some (round_half_up
              (mu1 (algo Examples.twopass_four Examples.pebay_four
                      [4; 5; 6] 10 [4; 5; 6]))) ∧
  compute_moment_rows Examples.twopass_four Examples.pebay_four
    Examples.matrix 10 !! 1%nat ≫= (.!! 1%nat)
    = Some (round_half_up
              (mu2 (algo Examples.twopass_four Examples.pebay_four
                      [4; 5; 6] 10 [4; 5; 6]))) ∧
  compute_moment_rows Examples.twopass_four Examples.pebay_four
    Examples.matrix 10 !! 2%nat ≫= (.!! 1%nat)
    = Some (round_half_up
              (mu3 (algo Examples.twopass_four Examples.pebay_four
                      [4; 5; 6] 10 [4; 5; 6]))) ∧
  compute_moment_rows Examples.twopass_four Examples.pebay_four
    Examples.matrix 10 !! 3%nat ≫= (.!! 1%nat)
    = Some (round_half_up
              (mu4 (algo Examples.twopass_four Examples.pebay_four
                      [4; 5; 6] 10 [4; 5; 6]))).
Proof.
  destruct (compute_moment_rows_shape Examples.twopass_four
              Examples.pebay_four Examples.matrix 10)
    as (Hcolumns & Hfour & _ & Hmoments & _).
  assert (Examples.matrix !! 1%nat = Some [4; 5; 6]) as Hj by reflexivity.
  split; [exact Hj|]. split; [exact Hcolumns|]. split; [exact Hfour|].
  exact (Hmoments 1%nat [4; 5; 6] Hj).
Defined.

Lemma compute_moment_rows_rounded_witness :
  compute_moment_rows Examples.twopass_stand_in Examples.pebay_stand_in
    Examples.matrix 10 !! 1%nat = Some [(67 # 100)%Q; (67 # 100)%Q] ∧
  (67 # 100)%Q ∈ [(67 # 100)%Q; (67 # 100)%Q] ∧
  ∃ row, row ∈ Examples.matrix ∧
         (67 # 100)%Q
           = float_of_str
               (format_2f
                  (moment_at
                     (algo Examples.twopass_stand_in Examples.pebay_stand_in
                        row 10 row) 1)).
Proof.
  assert (compute_moment_rows Examples.twopass_stand_in
            Examples.pebay_stand_in Examples.matrix 10 !! 1%nat
          = Some [(67 # 100)%Q; (67 # 100)%Q]) as Hcol
    by (vm_compute; reflexivity).
  assert ((67 # 100)%Q ∈ [(67 # 100)%Q; (67 # 100)%Q]) as Hv
    by (apply list_elem_of_here).
  split; [exact Hcol|]. split; [exact Hv|].
  exact (compute_moment_rows_rounded Examples.twopass_stand_in
           Examples.pebay_stand_in Examples.matrix 10 1
           [(67 # 100)%Q; (67 # 100)%Q] (67 # 100)%Q Hcol Hv).
Defined.

(** * Further properties *)

(** ** Crossover search: keys *)

Section CrossoverKeys.
Context {F : Type} `{PyFloat F}.
Implicit Types (tp pb : gmap Z F) (keys : list Z) (n m k : Z).

Lemma scan_crossover_ext tp pb pb' keys :
  (∀ n, n ∈ keys → pb !! n = pb' !! n) →
  scan_crossover tp pb keys = scan_crossover tp pb' keys.
Proof.
  induction keys as [|k keys IH]; intros Hsame; [done|].
  cbn [scan_crossover]. unfold py_getitem.
  rewrite <-(Hsame k) by set_solver.
  destruct (pb !! k); [|done]. destruct (tp !! k); [|done].
  destruct (fltb _ _); [done|]. apply IH. intros n Hn. apply Hsame. set_solver.
Qed.

(** X1.  Whenever the search returns, what it returns is a key of the two-pass
    table. *)
Theorem find_crossover_in_keys tp pb n :
  _find_crossover tp pb = Return n → n ∈ dom tp.
Proof.
  unfold _find_crossover. intros Hn.
  pose proof (scan_crossover_spec tp pb (sorted_keys tp)) as Hspec.
  destruct (scan_crossover tp pb (sorted_keys tp)) as [[n'|]|e]; [| |done].
  - injection Hn as ->. destruct Hspec as (l1 & l2 & Hkeys & _).
    apply elem_of_sorted_keys. rewrite Hkeys. set_solver.
  - apply py_max_return in Hn as [Hin _]. by apply elem_of_elements.
Qed.

(** X2.  The search looks the online table up only at keys of the two-pass
    table: an entry of the online table under another key changes
    nothing. *)
Theorem find_crossover_ignores_extra_keys tp pb k v :
  k ∉ dom tp → _find_crossover tp (<[k := v]> pb) = _find_crossover tp pb.
Proof.
  intros Hk. unfold _find_crossover.
  rewrite (scan_crossover_ext tp (<[k := v]> pb) pb); [done|].
  intros n Hn%elem_of_sorted_keys. apply lookup_insert_ne. by intros ->.
Qed.

Lemma scan_crossover_key_error tp pb keys m :
  StronglySorted Z.le keys → (∀ k, k ∈ keys → k ∈ dom tp) →
  m ∈ keys → pb !! m = None →
  (∀ k, k ∈ keys → k < m → pebay_faster tp pb k = false) →
  scan_crossover tp pb keys = Raise KeyError.
Proof.
  induction keys as [|k keys IH]; intros Hsorted Hdom Hm Hnone Hslow.
  { by apply elem_of_nil in Hm. }
  apply StronglySorted_cons in Hsorted as [Hle Hsorted].
  rewrite Forall_forall in Hle.
  cbn [scan_crossover]. unfold py_getitem.
  destruct (pb !! k) as [p|] eqn:Hp; [|done].
  assert (k ∈ dom tp) as [t Ht]%elem_of_dom by (apply Hdom; set_solver).
  rewrite Ht.
  apply elem_of_cons in Hm as [Heq|Hm]; [congruence|].
  assert (k < m) as Hlt.
  { pose proof (Hle m Hm) as Hkm.
    destruct (decide (k = m)) as [Heq|Hne]; [congruence|lia]. }
  assert (pebay_faster tp pb k = false) as Hk
    by (apply Hslow; [set_solver|done]).
  unfold pebay_faster in Hk. rewrite Hp, Ht in Hk. rewrite Hk.
  apply IH; [done| |done|done|].
  - intros k' Hk'. apply Hdom. set_solver.
  - intros k' Hk' Hlt'. apply Hslow; [set_solver|done].
Qed.

(** X3.  A key of the two-pass table that the online table lacks makes the
    search raise [KeyError], unless the scan stops before it: that is,
    when the online timing is strictly lower at no smaller key. *)
Theorem find_crossover_key_error tp pb m :
  m ∈ dom tp → pb !! m = None →
  (∀ k, k ∈ dom tp → k < m → pebay_faster tp pb k = false) →
  _find_crossover tp pb = Raise KeyError.
Proof.
  intros Hm Hnone Hslow. unfold _find_crossover.
  rewrite (scan_crossover_key_error tp pb (sorted_keys tp) m); [done|..].
  - apply sorted_keys_sorted.
  - intros k. apply elem_of_sorted_keys.
  - by apply elem_of_sorted_keys.
  - done.
  - intros k Hk%elem_of_sorted_keys. by apply Hslow.
Qed.
End CrossoverKeys.

(** ** The tuner: outcomes of a call *)

Section TunerOutcomes.
Context {F : Type} `{PyFloat F} {Fn : Type} (digest : identity → string).
Implicit Types (w : world (F:=F) (Fn:=Fn)) (twopass_fn pebay_fn func : Fn).

Local Opaque row_lengths synthetic_row.

(** X4.  Once the fingerprint is computed, nothing in
    [get_optimal_threshold] raises, whatever the file, the faults of reading
    and writing and the clock: the lookup of the cache (the [try] block)
    returns and leaves the world as it is, and the benchmark with the
    attempt to save returns an integer. *)
Theorem after_fingerprint_never_raises twopass_fn pebay_fn system_id w :
  (∃ cached, load_cached system_id w = (Return cached, w)) ∧
  (∃ threshold w',
     benchmark_and_save twopass_fn pebay_fn system_id w
       = (Return (JInt threshold), w')).
Proof.
  split.
  - apply load_cached_pure.
  - destruct (benchmark_and_save_spec twopass_fn pebay_fn system_id w)
      as (twopass & pebay & threshold & w2 & w3 & Hrun & _).
    exists threshold, w3. exact Hrun.
Qed.

(** X5.  An unforced call that can read a JSON object with the fresh fingerprint
    under "system_id" and some value under "threshold" returns that value
    and does nothing else: the world is unchanged. *)
Theorem cache_hit_returns_stored twopass_fn pebay_fn w items v :
  read_error w = None →
  config_file w = Some (Encoded (JObj items)) →
  assoc "system_id" items = Some (JStr (digest (ident w))) →
  assoc "threshold" items = Some v →
  get_optimal_threshold digest twopass_fn pebay_fn false w = (Return v, w).
Proof.
  intros Hread Hfile Hsys Hthr.
  apply get_optimal_threshold_hit; [rewrite Hfile; by eexists|].
  unfold load_cached, try_except, bind, json_load_config, lift, ret.
  rewrite Hread, Hfile. cbn [dict_get dict_contains dict_getitem].
  rewrite Hsys, Hthr. simpl. rewrite String.eqb_refl. reflexivity.
Qed.

Lemma fresh_threshold_in_sweep twopass_fn pebay_fn w twopass pebay threshold w' :
  fresh_threshold twopass_fn pebay_fn w twopass pebay threshold w' →
  threshold ∈ row_lengths.
Proof.
  intros (w1 & Hrun1 & _ & Hcross).
  destruct (run_benchmark_returns twopass_fn row_lengths 5 w)
    as (table & w1' & Hrun & Hdom & _); [done|].
  rewrite Hrun in Hrun1. injection Hrun1 as -> ->.
  apply (elem_of_list_to_set (C:=gset Z)). rewrite <-Hdom.
  clear Hdom Hrun. unfold _find_crossover in Hcross.
  pose proof (scan_crossover_spec twopass pebay (sorted_keys twopass))
    as Hspec.
  destruct (scan_crossover twopass pebay (sorted_keys twopass))
    as [[n|]|e]; [| |discriminate Hcross].
  - injection Hcross as ->. destruct Hspec as (l1 & l2 & Hkeys & _).
    apply elem_of_sorted_keys. rewrite Hkeys.
    apply elem_of_app. right. apply list_elem_of_here.
  - apply py_max_return in Hcross as [Hin _].
    apply elem_of_elements. exact Hin.
Qed.

(** X6.  A call that benchmarks returns an integer of the sweep: at least 8, at
    most 2024, and 8 more than a multiple of 32. *)
Theorem benchmarked_threshold_in_sweep twopass_fn pebay_fn force_retune w :
  benchmarks digest force_retune w →
  ∃ threshold w',
    get_optimal_threshold digest twopass_fn pebay_fn force_retune w
      = (Return (JInt threshold), w') ∧
    threshold ∈ row_lengths ∧
    8 ≤ threshold ≤ 2024 ∧ (threshold - 8) `mod` 32 = 0.
Proof.
  intros Hmiss. rewrite get_optimal_threshold_miss by done.
  destruct (benchmark_and_save_spec twopass_fn pebay_fn (digest (ident w)) w)
    as (twopass & pebay & threshold & w2 & w3 & -> & Hfresh & _).
  exists threshold, w3. split; [done|].
  apply fresh_threshold_in_sweep in Hfresh. split; [done|].
  apply elem_of_row_lengths in Hfresh as [Hbound Hmod]. split; [|done].
  apply Z.mod_divide in Hmod as [q Hq]; lia.
Qed.

(** X7.  With a repeat count of zero and at least one length, the harness raises
    [ZeroDivisionError] at the first length, without invoking the callable
    or reading the clock: the world is unchanged. *)
Theorem run_benchmark_zero_repeat func n lengths w :
  _run_benchmark func (n :: lengths) 0 w = (Raise ZeroDivisionError, w).
Proof.
  unfold _run_benchmark. cbn [for_each].
  destruct (benchmark_length_spec func 0 ∅ n w) as [_ Hraise].
  unfold bind at 1. by rewrite Hraise.
Qed.
End TunerOutcomes.

(** ** The harness: what the table holds *)

Section HarnessTimings.
Context {F : Type} `{PyFloat F} {Fn : Type}.
Implicit Types (w : world (F:=F) (Fn:=Fn)) (func : Fn).

Lemma measured_S clk from count :
  measured clk from (S count)
    = fsub (clk (S from)) (clk from) :: measured clk (S (S from)) count.
Proof.
  unfold measured. cbn [seq fmap list_fmap]. f_equal.
  - f_equal; f_equal; lia.
  - rewrite <-fmap_S_seq, <-list_fmap_compose. apply list_fmap_ext.
    intros _ k _. simpl. f_equal; f_equal; lia.
Qed.

(** The inner loop appends the measured durations and takes two readings a
    round. *)
Lemma time_calls_durations func row k durations w :
  ∃ w', time_calls func row k durations w
          = (Return (durations ++ measured (clock w) (reads w) k), w') ∧
        clock w' = clock w ∧ reads w' = (reads w + 2 * k)%nat.
Proof.
  revert durations w. induction k as [|k IH]; intros durations w.
  - exists w. cbn [time_calls]. unfold ret, measured. simpl.
    rewrite app_nil_r. split; [done|]. split; [done|lia].
  - cbn [time_calls]. unfold bind at 1. cbn [perf_counter].
    unfold bind at 1. cbn [call]. unfold bind at 1. cbn [perf_counter].
    match goal with
    | |- ∃ _, time_calls _ _ _ ?ds ?w0 = _ ∧ _ =>
        destruct (IH ds w0) as (w' & Hrun & Hclock & Hreads)
    end.
    exists w'. rewrite Hrun.
    cbn [clock reads set_reads set_calls] in Hclock, Hreads |- *.
    rewrite measured_S, <-app_assoc. split; [done|]. split; [done|lia].
Qed.

(** One round of the outer loop stores the mean of the durations measured
    from the current reading on. *)
Lemma benchmark_length_value func repeat results n w :
  repeat ≠ 0 →
  ∃ w', benchmark_length func repeat results n w
          = (Return (<[n := mean_duration (clock w) (reads w) repeat]> results),
             w') ∧
        clock w' = clock w ∧
        reads w' = (reads w + 2 * Z.to_nat repeat)%nat.
Proof.
  intros Hrep. unfold benchmark_length.
  destruct (time_calls_durations func (synthetic_row n) (Z.to_nat repeat) [] w)
    as (w' & Hrun & Hclock & Hreads).
  exists w'. unfold bind at 1. rewrite Hrun.
  unfold bind, lift, py_truediv, ret.
  destruct (decide (repeat = 0)); [done|]. done.
Qed.

Lemma for_each_benchmark_values func repeat lengths results w :
  repeat ≠ 0 →
  ∃ table w',
    for_each (benchmark_length func repeat) results lengths w
      = (Return table, w') ∧
    (∀ n, n ∉ lengths → table !! n = results !! n) ∧
    (∀ (i : nat) n, lengths !! i = Some n → n ∉ drop (S i) lengths →
       table !! n
         = Some (mean_duration (clock w)
                   (reads w + 2 * Z.to_nat repeat * i) repeat)).
Proof.
  intros Hrep. revert results w.
  induction lengths as [|n0 lengths IH]; intros results w.
  - exists results, w. split; [done|]. split; [done|]. intros i n Hi. done.
  - destruct (benchmark_length_value func repeat results n0 w Hrep)
      as (w1 & Hstep & Hclock & Hreads).
    destruct (IH (<[n0 := mean_duration (clock w) (reads w) repeat]> results)
                w1) as (table & w' & Hrest & Hkeep & Hvalue).
    exists table, w'. cbn [for_each]. unfold bind at 1. rewrite Hstep.
    split; [done|]. split.
    + intros n Hn. rewrite Hkeep by set_solver.
      apply lookup_insert_ne. set_solver.
    + intros [|i] n Hi Hlast.
      * injection Hi as ->. cbn [drop] in Hlast.
        rewrite Hkeep by done. rewrite lookup_insert_eq.
        do 2 f_equal. lia.
      * cbn in Hi, Hlast. rewrite (Hvalue i n Hi Hlast).
        rewrite Hclock, Hreads. do 2 f_equal. lia.
Qed.

(** X8.  The table the harness returns: under a length, the mean of the [repeat]
    durations measured for its last occurrence in the list, each the
    difference of two successive readings of the clock; the harness takes
    [2 * repeat] readings a length, in the order of the list. *)
Theorem run_benchmark_values func lengths repeat w (i : nat) n :
  repeat ≠ 0 →
  lengths !! i = Some n → n ∉ drop (S i) lengths →
  ∃ table w',
    _run_benchmark func lengths repeat w = (Return table, w') ∧
    table !! n
      = Some (fdiv
                (py_sum
                   (measured (clock w) (reads w + 2 * Z.to_nat repeat * i)
                      (Z.to_nat repeat)))
                (f_of_Z repeat)).
Proof.
  intros Hrep Hi Hlast. unfold _run_benchmark.
  destruct (for_each_benchmark_values func repeat lengths ∅ w Hrep)
    as (table & w' & Hrun & _ & Hvalue).
  exists table, w'. split; [done|]. by apply Hvalue.
Qed.
End HarnessTimings.

(** ** The dispatcher: blocks of rows and extreme thresholds *)

Section DispatcherMore.
Context {F : Type} `{PyFloat F}.
Context (compute_moments_twopass compute_moments_pebay
           : list Z → MomentResult (F:=F)).
Implicit Types (data : list (list Z)) (row : list Z) (threshold : Z).

Local Notation compute_moment_rows :=
  (compute_moment_rows compute_moments_twopass compute_moments_pebay).
Local Notation output_of :=
  (output_of compute_moments_twopass compute_moments_pebay).

(** X9.  Rows are handled one by one: the result for a matrix made of two blocks
    of rows is, sequence by sequence, the result for the first block
    followed by the result for the second. *)
Theorem compute_moment_rows_app data1 data2 threshold :
  compute_moment_rows (data1 ++ data2) threshold
    = zip_with app (compute_moment_rows data1 threshold)
        (compute_moment_rows data2 threshold).
Proof.
  rewrite !compute_moment_rows_columns. cbn [seq fmap list_fmap zip_with].
  by rewrite !fmap_app.
Qed.

(** X10.  When every row is strictly shorter than the threshold, the result is
    made by the two-pass accumulator alone. *)
Theorem compute_moment_rows_all_twopass data threshold :
  (∀ row, row ∈ data → Z.of_nat (length row) < threshold) →
  compute_moment_rows data threshold
    = (λ i, (λ row, round_half_up (moment_at (compute_moments_twopass row) i))
              <$> data) <$> seq 0 4.
Proof.
  intros Hshort. rewrite compute_moment_rows_columns.
  apply list_fmap_ext. intros _ i _. apply list_fmap_ext.
  intros j row Hrow%list_elem_of_lookup_2. unfold Main.output_of, Main.algo.
  case_decide; [done|]. specialize (Hshort row Hrow). lia.
Qed.

(** X11.  With a threshold of zero or less every row, an empty one included, goes
    to the online accumulator. *)
Theorem compute_moment_rows_all_pebay data threshold :
  threshold ≤ 0 →
  compute_moment_rows data threshold
    = (λ i, (λ row, round_half_up (moment_at (compute_moments_pebay row) i))
              <$> data) <$> seq 0 4.
Proof.
  intros Hlow. rewrite compute_moment_rows_columns.
  apply list_fmap_ext. intros _ i _. apply list_fmap_ext.
  intros _ row _. unfold Main.output_of, Main.algo.
  case_decide; [lia|done].
Qed.
End DispatcherMore.

(** ** Comparison with expected values *)

Section CompareProps.
Context {F : Type} `{PyFloat F} (fabs : F → F) (tolerance : F).
Implicit Types (computed expected : list (list F)) (cs es : list F).

Local Notation exceeds := (exceeds fabs tolerance).
Local Notation mismatches_from := (mismatches_from fabs tolerance).
Local Notation compare_moment := (compare_moment fabs tolerance).
Local Notation compare_loop := (compare_loop fabs tolerance).
Local Notation compare_outputs := (compare_outputs fabs tolerance).
Local Notation within_tolerance := (within_tolerance fabs tolerance).

Lemma mismatches_from_nil start cs es :
  length cs = length es →
  mismatches_from start cs es = [] ↔
  ∀ (j : nat) c e, cs !! j = Some c → es !! j = Some e → exceeds c e = false.
Proof.
  revert start es. induction cs as [|c cs IH]; intros start [|e es] Hlen;
    try done.
  cbn [Main.mismatches_from]. injection Hlen as Hlen. split.
  - intros [Hhead Htail]%app_nil. intros [|j] c' e' Hc He.
    + injection Hc as <-. injection He as <-.
      by destruct (exceeds c e).
    + by apply (proj1 (IH (S start) es Hlen) Htail j).
  - intros Hall. apply app_nil. split.
    + by rewrite (Hall 0%nat c e).
    + apply IH; [done|]. intros j c' e' Hc He. by apply (Hall (S j)).
Qed.

(** A round of the loop leaves [matched] alone exactly when the two
    sequences agree. *)
Lemma compare_moment_ok i cs es :
  (compare_moment i cs es).2 = true ↔ within_tolerance cs es.
Proof.
  unfold Main.compare_moment, Main.within_tolerance.
  destruct (decide (length cs ≠ length es)) as [Hne|Heq%dec_stable]; simpl.
  - split; [done|]. intros [? _]. done.
  - rewrite <-(mismatches_from_nil 0 cs es Heq).
    destruct (mismatches_from 0 cs es); simpl; split; try done.
    + intros [_ ?]. done.
Qed.

Lemma compare_loop_verdict indices computed expected matched printed :
  length computed = length expected →
  (∀ i, i ∈ indices → (i < length computed)%nat) →
  ∃ lines verdict,
    compare_loop indices computed expected matched printed
      = (lines, Verdict verdict) ∧
    (verdict = true ↔
     matched = true ∧
     ∀ i cs es, i ∈ indices → computed !! i = Some cs →
                expected !! i = Some es → within_tolerance cs es).
Proof.
  intros Hlen. revert matched printed.
  induction indices as [|i indices IH]; intros matched printed Hrange.
  - exists printed, matched. split; [done|]. split; [|by intros [? _]].
    intros ->. split; [done|]. intros i cs es Hi. by apply elem_of_nil in Hi.
  - cbn [Main.compare_loop].
    destruct (lookup_lt_is_Some_2 computed i) as [cs Hcs];
      [apply Hrange; set_solver|].
    destruct (lookup_lt_is_Some_2 expected i) as [es Hes];
      [rewrite <-Hlen; apply Hrange; set_solver|].
    rewrite Hcs, Hes.
    pose proof (compare_moment_ok i cs es) as Hok.
    destruct (compare_moment i cs es) as [lines ok]. simpl in Hok.
    destruct (IH (matched && ok) (printed ++ lines)) as (out & verdict & Hrun & Hiff).
    { intros i' Hi'. apply Hrange. set_solver. }
    exists out, verdict. split; [done|]. rewrite Hiff, andb_true_iff, Hok.
    split.
    + intros [[Hm Hagree] Hrest]. split; [done|].
      intros i' cs' es' [-> | Hi']%elem_of_cons Hcs' Hes'.
      * congruence.
      * by eapply Hrest.
    + intros [Hm Hall]. split; [split; [done|]|].
      * apply (Hall i); [set_solver|done|done].
      * intros i' cs' es' Hi'. apply Hall. set_solver.
Qed.

(** X12.  With at least four computed sequences, [compare_outputs] ends with a
    verdict, and the verdict is [True] exactly when there are as many
    expected sequences as computed ones and each of the first four computed
    sequences agrees with the expected one: same length, and no two values
    at the same index more than the tolerance apart. *)
Theorem compare_outputs_verdict computed expected :
  (4 ≤ length computed)%nat →
  ∃ lines verdict,
    compare_outputs computed expected = (lines, Verdict verdict) ∧
    (verdict = true ↔
     length computed = length expected ∧
     ∀ (i : nat) cs es, (i < 4)%nat → computed !! i = Some cs →
                        expected !! i = Some es → within_tolerance cs es).
Proof.
  intros Hfour. unfold Main.compare_outputs.
  destruct (decide (length computed ≠ length expected)) as [Hne|Heq%dec_stable].
  - eexists _, false. split; [done|]. split; [done|]. intros [? _]. done.
  - destruct (compare_loop_verdict (seq 0 4) computed expected true [] Heq)
      as (lines & verdict & Hrun & Hiff).
    { intros i Hi%elem_of_seq. lia. }
    exists lines, verdict. split; [done|]. rewrite Hiff. split.
    + intros [_ Hall]. split; [done|]. intros i cs es Hi. apply Hall.
      apply elem_of_seq. lia.
    + intros [_ Hall]. split; [done|]. intros i cs es Hi%elem_of_seq.
      apply Hall. lia.
Qed.

Lemma compare_loop_index_error indices computed expected matched printed i :
  length computed = length expected →
  i ∈ indices → (length computed ≤ i)%nat →
  (compare_loop indices computed expected matched printed).2 = IndexError.
Proof.
  intros Hlen. revert matched printed.
  induction indices as [|i' indices IH]; intros matched printed Hi Hout.
  { by apply elem_of_nil in Hi. }
  cbn [Main.compare_loop].
  destruct (computed !! i') as [cs|] eqn:Hcs; [|done].
  destruct (expected !! i') as [es|] eqn:Hes; [|done].
  destruct (compare_moment i' cs es) as [lines ok].
  apply elem_of_cons in Hi as [-> | Hi].
  - apply lookup_lt_Some in Hcs. lia.
  - by apply IH.
Qed.

(** X13.  With as many expected sequences as computed ones, but fewer than four,
    [compare_outputs] raises [IndexError]: the loop reaches an index that
    [computed] does not have. *)
Theorem compare_outputs_index_error computed expected :
  length computed = length expected → (length computed < 4)%nat →
  (compare_outputs computed expected).2 = IndexError.
Proof.
  intros Hlen Hshort. unfold Main.compare_outputs.
  destruct (decide (length computed ≠ length expected)); [done|].
  apply compare_loop_index_error with (i := length computed); [done| |done].
  apply elem_of_seq. lia.
Qed.

Lemma compare_loop_ext indices computed expected computed' expected'
    matched printed :
  (∀ i, i ∈ indices →
        computed !! i = computed' !! i ∧ expected !! i = expected' !! i) →
  compare_loop indices computed expected matched printed
    = compare_loop indices computed' expected' matched printed.
Proof.
  revert matched printed.
  induction indices as [|i indices IH]; intros matched printed Hsame; [done|].
  cbn [Main.compare_loop].
  destruct (Hsame i) as [<- <-]; [set_solver|].
  destruct (computed !! i) as [cs|]; [|done].
  destruct (expected !! i) as [es|]; [|done].
  destruct (compare_moment i cs es) as [lines ok].
  apply IH. intros i' Hi'. apply Hsame. set_solver.
Qed.

(** X14.  Only the first four sequences are compared: with at least four on each
    side, further sequences, as many on one side as on the other, change
    neither the output nor the verdict. *)
Theorem compare_outputs_first_four computed expected more more' :
  length computed = length expected → (4 ≤ length computed)%nat →
  length more = length more' →
  compare_outputs (computed ++ more) (expected ++ more')
    = compare_outputs computed expected.
Proof.
  intros Hlen Hfour Hmore. unfold Main.compare_outputs.
  rewrite !length_app.
  destruct (decide (length computed ≠ length expected)); [done|].
  destruct (decide (length computed + length more
                    ≠ length expected + length more')%nat); [lia|].
  apply compare_loop_ext. intros i Hi%elem_of_seq.
  split; apply lookup_app_l; lia.
Qed.
End CompareProps.

(** ** The dispatcher's result compared *)

Section CompareDispatched.
Context {F : Type} `{PyFloat F} (fabs : F → F) (tolerance : F).
Context (compute_moments_twopass compute_moments_pebay
           : list Z → MomentResult (F:=F)).

(** X15.  The dispatcher returns four sequences, so against anything but four
    expected sequences the comparison stops at once: it prints the row
    count mismatch and returns [False], whatever the values are. *)
Theorem compare_dispatched_row_count data threshold
    (expected : list (list F)) :
  length expected ≠ 4%nat →
  compare_outputs fabs tolerance
    (compute_moment_rows compute_moments_twopass compute_moments_pebay
       data threshold) expected
    = (["Row count mismatch between computed and expected."], Verdict false).
Proof.
  intros Hne. unfold Main.compare_outputs.
  rewrite compute_moment_rows_columns, length_fmap, length_seq.
  by destruct (decide (4%nat ≠ length expected)).
Qed.
End CompareDispatched.

(** ** Binary matrix files *)

Lemma byte_value_bounds b : 0 ≤ byte_value b ≤ 255.
Proof.
  unfold byte_value. pose proof (Byte.to_N_bounded b). lia.
Qed.

Lemma byte_value_of_Z z : byte_value (byte_of_Z z) = z `mod` 256.
Proof.
  unfold byte_value, byte_of_Z.
  pose proof (Z.mod_pos_bound z 256) as Hbound.
  destruct (Byte.of_N (Z.to_N (z `mod` 256))) as [b|] eqn:Hb; simpl.
  - apply Byte.to_of_N in Hb. rewrite Hb. lia.
  - apply Byte.of_N_None_iff in Hb. lia.
Qed.

Lemma int8_of_byte_of_Z v : -128 ≤ v ≤ 127 → int8_of_byte (byte_of_Z v) = v.
Proof.
  intros Hv. unfold int8_of_byte. rewrite byte_value_of_Z.
  destruct (decide (0 ≤ v)).
  - rewrite Z.mod_small by lia. case_decide; lia.
  - replace (v `mod` 256) with (v + 256).
    + case_decide; lia.
    + apply (Z.mod_unique_pos v 256 (-1)); lia.
Qed.

Lemma int8_of_byte_bounds b : -128 ≤ int8_of_byte b ≤ 127.
Proof.
  unfold int8_of_byte. pose proof (byte_value_bounds b). case_decide; lia.
Qed.

(** What [struct.pack] writes for a non-negative [int32], [struct.unpack]
    reads back. *)
Lemma unpack_pack_int32 v :
  0 ≤ v < 2 ^ 31 →
  ∃ b0 b1 b2 b3, pack_int32 v = Some [b0; b1; b2; b3] ∧
                 unpack_int32 b0 b1 b2 b3 = v.
Proof.
  intros Hv. unfold pack_int32. rewrite decide_True by lia.
  eexists _, _, _, _. split; [done|].
  unfold unpack_int32. rewrite !byte_value_of_Z.
  assert (v `mod` 256 + 2 ^ 8 * (v `div` 2 ^ 8) `mod` 256
          + 2 ^ 16 * (v `div` 2 ^ 16) `mod` 256
          + 2 ^ 24 * (v `div` 2 ^ 24) `mod` 256 = v) as ->.
  { change (2 ^ 16) with (2 ^ 8 * 2 ^ 8).
    change (2 ^ 24) with (2 ^ 8 * 2 ^ 8 * 2 ^ 8).
    rewrite <-!Z.div_div by lia. change (2 ^ 8) with 256.
    pose proof (Z.div_mod v 256 ltac:(lia)) as H0.
    pose proof (Z.div_mod (v `div` 256) 256 ltac:(lia)) as H1.
    pose proof (Z.div_mod (v `div` 256 `div` 256) 256 ltac:(lia)) as H2.
    assert (v `div` 256 `div` 256 `div` 256 < 256) as H3.
    { rewrite !Z.div_div by lia. apply Z.div_lt_upper_bound; lia. }
    assert (0 ≤ v `div` 256 `div` 256 `div` 256) as H4.
    { rewrite !Z.div_div by lia. apply Z.div_pos; lia. }
    rewrite (Z.mod_small (v `div` 256 `div` 256 `div` 256) 256) by lia.
    lia. }
  case_decide; lia.
Qed.

Lemma elem_of_concat (v : Z) (ls : list (list Z)) :
  v ∈ concat ls ↔ ∃ l, v ∈ l ∧ l ∈ ls.
Proof.
  induction ls as [|l ls IH]; cbn [concat].
  - split; [by intros ?%elem_of_nil|]. intros (l & _ & ?%elem_of_nil). done.
  - rewrite elem_of_app, IH. split.
    + intros [Hv|(l' & Hv & Hl')]; [exists l|exists l']; set_solver.
    + intros (l' & Hv & [-> | Hl']%elem_of_cons); [by left|right; eauto].
Qed.

Lemma reshape_concat (N : nat) (matrix : list (list Z)) :
  Forall (λ row, length row = N) matrix →
  reshape (length matrix) N (concat matrix) = matrix.
Proof.
  induction 1 as [|row matrix Hrow _ IH]; [done|].
  cbn [length reshape concat].
  rewrite take_app_length' by done. rewrite drop_app_length' by done.
  by rewrite IH.
Qed.

Lemma reshape_shape (M N : nat) (flat : list Z) :
  length flat = (M * N)%nat →
  length (reshape M N flat) = M ∧
  Forall (λ row, length row = N) (reshape M N flat) ∧
  concat (reshape M N flat) = flat.
Proof.
  revert flat. induction M as [|M IH]; intros flat Hlen.
  - destruct flat; [done|]. simpl in Hlen. lia.
  - cbn [reshape]. destruct (IH (drop N flat)) as (Hrows & Hcols & Hcat).
    { rewrite length_drop. lia. }
    split; [simpl; by rewrite Hrows|]. split.
    + constructor; [|done]. rewrite length_take. lia.
    + cbn [concat]. by rewrite Hcat, take_drop.
Qed.

(** X16.  Round trip with the writer of the test-suite: a matrix with at least
    one row and one column, fewer than [2^31] of each, and entries in the
    [int8] range is read back from the bytes written for it. *)
Theorem write_read_round_trip (cols : nat) (matrix : list (list Z)) :
  (0 < length matrix)%nat → (0 < cols)%nat →
  Z.of_nat (length matrix) < 2 ^ 31 → Z.of_nat cols < 2 ^ 31 →
  Forall (λ row, length row = cols ∧ Forall (λ v, -128 ≤ v ≤ 127) row)
    matrix →
  ∃ file, write_bin_file cols matrix = Some file ∧
          read_binary_matrix file = Return matrix.
Proof.
  intros Hrows Hcols Hrows_fit Hcols_fit Hmatrix.
  destruct (unpack_pack_int32 (Z.of_nat (length matrix)))
    as (b0 & b1 & b2 & b3 & Hpack_rows & Hunpack_rows); [lia|].
  destruct (unpack_pack_int32 (Z.of_nat cols))
    as (b4 & b5 & b6 & b7 & Hpack_cols & Hunpack_cols); [lia|].
  unfold write_bin_file. rewrite Hpack_rows, Hpack_cols.
  cbn [mbind option_bind app].
  eexists. split; [reflexivity|].
  unfold read_binary_matrix. cbv zeta.
  rewrite Hunpack_rows, Hunpack_cols.
  rewrite decide_False by lia.
  assert (int8_of_byte <$> (byte_of_Z <$> concat matrix) = concat matrix)
    as ->.
  { rewrite <-list_fmap_compose. rewrite <-(list_fmap_id (concat matrix)) at 2.
    apply list_fmap_ext. intros _ v Hv%list_elem_of_lookup_2. simpl.
    apply int8_of_byte_of_Z.
    apply elem_of_concat in Hv as (row & Hv & Hrow).
    rewrite Forall_forall in Hmatrix. destruct (Hmatrix row Hrow) as [_ Hrange].
    rewrite Forall_forall in Hrange. by apply Hrange. }
  assert (Forall (λ row, length row = cols) matrix) as Hlens.
  { eapply Forall_impl; [exact Hmatrix|]. by intros row [? _]. }
  assert (length (concat matrix) = (length matrix * cols)%nat) as Hsize.
  { clear -Hlens. induction Hlens as [|row matrix Hrow _ IH]; [done|].
    cbn [concat length]. rewrite length_app, IH, Hrow. lia. }
  rewrite decide_False by (rewrite Hsize; lia).
  rewrite !Nat2Z.id. by rewrite reshape_concat.
Qed.

(** X17.  What the reader returns has the shape of the header: at least one row,
    all rows of one positive length, entries in the [int8] range, and as
    many entries as the file has bytes after the first eight. *)
Theorem read_binary_matrix_shape file rows :
  read_binary_matrix file = Return rows →
  rows ≠ [] ∧
  ∃ N : nat, (0 < N)%nat ∧
    Forall (λ row, length row = N ∧ Forall (λ v, -128 ≤ v ≤ 127) row) rows ∧
    length file = (8 + length rows * N)%nat.
Proof.
  unfold read_binary_matrix.
  destruct file as [|b0 [|b1 [|b2 [|b3 [|b4 [|b5 [|b6 [|b7 data]]]]]]]];
    try done.
  set (M := unpack_int32 b0 b1 b2 b3). set (N := unpack_int32 b4 b5 b6 b7).
  cbv zeta. case_decide as Hdims; [done|]. case_decide as Hsize; [done|].
  intros [= <-].
  rewrite length_fmap in Hsize.
  destruct (reshape_shape (Z.to_nat M) (Z.to_nat N) (int8_of_byte <$> data))
    as (Hrows & Hcols & Hcat).
  { rewrite length_fmap. nia. }
  split.
  - intros Hnil. rewrite Hnil in Hrows. simpl in Hrows. lia.
  - exists (Z.to_nat N). split; [lia|]. split.
    + rewrite Forall_forall in Hcols |- *. intros row Hrow.
      split; [by apply Hcols|]. apply Forall_forall. intros v Hv.
      assert (v ∈ int8_of_byte <$> data) as Hin.
      { rewrite <-Hcat. apply elem_of_concat. eauto. }
      apply list_elem_of_fmap in Hin as (b & -> & _).
      apply int8_of_byte_bounds.
    + rewrite Hrows. cbn [length]. nia.
Qed.

(** X18.  A file that starts with the eight bytes of a file the reader accepts
    but has another length is rejected with [ValueError]: truncated or
    extended data does not fit the header. *)
Theorem read_binary_matrix_size_mismatch file file' rows :
  read_binary_matrix file = Return rows →
  take 8 file' = take 8 file → length file' ≠ length file →
  read_binary_matrix file' = Raise ValueError.
Proof.
  unfold read_binary_matrix.
  destruct file as [|b0 [|b1 [|b2 [|b3 [|b4 [|b5 [|b6 [|b7 data]]]]]]]];
    try done.
  cbv zeta. case_decide as Hdims; [done|]. case_decide as Hsize; [done|].
  intros _ Hhead Hlen.
  destruct file' as [|c0 [|c1 [|c2 [|c3 [|c4 [|c5 [|c6 [|c7 data']]]]]]]];
    try done.
  cbn [take] in Hhead. injection Hhead as -> -> -> -> -> -> -> ->.
  rewrite decide_False by done. rewrite decide_True; [done|].
  rewrite length_fmap in Hsize |- *. cbn [length] in Hlen. lia.
Qed.

(** ** The tuner: what is stored *)

Section TunerStored.
Context {F : Type} `{PyFloat F} {Fn : Type} (digest : identity → string).
Implicit Types (w : world (F:=F) (Fn:=Fn)) (twopass_fn pebay_fn : Fn).

Local Opaque row_lengths synthetic_row.

Lemma assoc_timings (t : gmap Z F) (keys : list Z) n :
  assoc (pretty n)
    (omap (λ k, (λ v, (pretty k, JFloat v)) <$> t !! k) keys)
  = if decide (n ∈ keys) then JFloat <$> t !! n else None.
Proof.
  induction keys as [|k keys IH]; [done|]. cbn [omap list_omap].
  destruct (t !! k) as [v|] eqn:Hk; cbn [fmap option_fmap option_map].
  - cbn [assoc]. destruct (decide (k = n)) as [->|Hne].
    + rewrite String.eqb_refl, decide_True by set_solver. by rewrite Hk.
    + assert (pretty k ≠ pretty n) as Hstr by (by intros ?%(inj pretty)).
      apply String.eqb_neq in Hstr. rewrite Hstr, IH.
      destruct (decide (n ∈ keys)).
      * by rewrite decide_True by set_solver.
      * by rewrite decide_False by set_solver.
  - rewrite IH. destruct (decide (n ∈ keys)) as [Hin|Hout].
    + by rewrite decide_True by set_solver.
    + destruct (decide (n ∈ k :: keys)) as [Hin'|]; [|done].
      apply elem_of_cons in Hin' as [-> | ?]; [|done]. by rewrite Hk.
Qed.

(** A timing table as written: an object keyed by the decimal text of the
    lengths. *)
Lemma json_of_timings_get (t : gmap Z F) n :
  dict_get (json_of_timings t) (pretty n)
    = Return (default JNull (JFloat <$> t !! n)).
Proof.
  unfold json_of_timings, dict_get. rewrite assoc_timings.
  destruct (decide (n ∈ sorted_keys t)) as [|Hout]; [done|].
  rewrite elem_of_sorted_keys in Hout.
  apply not_elem_of_dom in Hout. by rewrite Hout.
Qed.

Lemma fresh_threshold_tables twopass_fn pebay_fn w twopass pebay threshold w' n :
  fresh_threshold twopass_fn pebay_fn w twopass pebay threshold w' →
  n ∈ row_lengths → is_Some (twopass !! n) ∧ is_Some (pebay !! n).
Proof.
  intros (w1 & Hrun1 & Hrun2 & _) Hn.
  destruct (run_benchmark_returns twopass_fn row_lengths 5 w)
    as (table1 & w1' & Hret1 & Hdom1 & _); [lia|].
  rewrite Hret1 in Hrun1. injection Hrun1 as -> ->.
  destruct (run_benchmark_returns pebay_fn row_lengths 5 w1)
    as (table2 & w2' & Hret2 & Hdom2 & _); [lia|].
  rewrite Hret2 in Hrun2. injection Hrun2 as -> ->.
  apply (elem_of_list_to_set (C:=gset Z)) in Hn.
  split; apply elem_of_dom; [rewrite Hdom1|rewrite Hdom2]; exact Hn.
Qed.

(** X19.  What a call that benchmarks writes when the write succeeds: the
    file then holds an object with the returned threshold under "threshold",
    the fingerprint under "system_id", and under "twopass" and "pebay" the
    two tables measured in this call, each an object keyed by the decimal
    text of the lengths.  Looking up the text of a length gives the time
    measured for it, which is there for every length of the sweep, and
    [None] for an integer that was not measured. *)
Theorem stored_timings_lookup twopass_fn pebay_fn force_retune w :
  write_error w = None → benchmarks digest force_retune w →
  ∃ twopass pebay threshold w2 w3 record twopass_json pebay_json,
    get_optimal_threshold digest twopass_fn pebay_fn force_retune w
      = (Return (JInt threshold), w3) ∧
    fresh_threshold twopass_fn pebay_fn
      (print "Running algorithm benchmarks (first use or system changed)..."
         w).2 twopass pebay threshold w2 ∧
    config_file w3 = Some (Encoded record) ∧
    dict_getitem record "threshold" = Return (JInt threshold) ∧
    dict_getitem record "system_id" = Return (JStr (digest (ident w))) ∧
    dict_getitem record "twopass" = Return twopass_json ∧
    dict_getitem record "pebay" = Return pebay_json ∧
    ∀ n,
      dict_get twopass_json (pretty n)
        = Return (default JNull (JFloat <$> twopass !! n)) ∧
      dict_get pebay_json (pretty n)
        = Return (default JNull (JFloat <$> pebay !! n)) ∧
      (n ∈ row_lengths → is_Some (twopass !! n) ∧ is_Some (pebay !! n)).
Proof.
  intros Hwrite Hmiss. rewrite get_optimal_threshold_miss by exact Hmiss.
  destruct (benchmark_and_save_spec twopass_fn pebay_fn (digest (ident w)) w)
    as (twopass & pebay & threshold & w2 & w3 & Hrun & Hfresh & _ & Hw3).
  rewrite Hwrite in Hw3.
  exists twopass, pebay, threshold, w2, w3,
    (config_record threshold (digest (ident w)) twopass pebay),
    (json_of_timings twopass), (json_of_timings pebay).
  split; [exact Hrun|]. split; [exact Hfresh|].
  split; [rewrite Hw3; reflexivity|].
  split; [reflexivity|]. split; [reflexivity|].
  split; [reflexivity|]. split; [reflexivity|].
  intros n. split; [apply json_of_timings_get|].
  split; [apply json_of_timings_get|].
  intros Hn. exact (fresh_threshold_tables _ _ _ _ _ _ _ n Hfresh Hn).
Qed.

(** X20.  When [json.dump] fails, the file it leaves is no cache: any later
    unforced call that finds that file benchmarks again, and returns what
    it then measures. *)
Theorem truncated_write_invalidates_cache twopass_fn pebay_fn force_retune
    w msg partial w' :
  write_error w = Some (DumpFails msg partial) →
  benchmarks digest force_retune w →
  config_file w'
    = config_file
        (get_optimal_threshold digest twopass_fn pebay_fn force_retune w).2 →
  ∃ threshold w'',
    get_optimal_threshold digest twopass_fn pebay_fn false w'
      = (Return (JInt threshold), w'') ∧
    calls w'' = calls w' ++ harness_calls twopass_fn row_lengths 5 ++
                harness_calls pebay_fn row_lengths 5.
Proof.
  intros Hwrite Hmiss Hfile.
  rewrite get_optimal_threshold_miss in Hfile by done.
  destruct (benchmark_and_save_spec twopass_fn pebay_fn (digest (ident w)) w)
    as (? & ? & ? & w2 & w3 & Hrun & _ & _ & Hw3).
  rewrite Hrun in Hfile. rewrite Hwrite in Hw3. subst w3.
  change (config_file w' = Some (Malformed partial)) in Hfile.
  destruct (unusable_cache_rebenchmarks digest twopass_fn pebay_fn false w')
    as (? & ? & threshold & ? & w'' & Hnext & _ & Hcalls).
  { apply cache_corrupt with (text := partial). exact Hfile. }
  exists threshold, w''. split; [exact Hnext|exact Hcalls].
Qed.
End TunerStored.

Lemma find_crossover_in_keys_witness :
  _find_crossover Examples.two_pass Examples.pebay = Return 16 ∧
  16 ∈ dom Examples.two_pass.
Proof.
  assert (_find_crossover Examples.two_pass Examples.pebay = Return 16)
    as Hret by (vm_compute; reflexivity).
  split; [exact Hret|].
  exact (find_crossover_in_keys Examples.two_pass Examples.pebay 16 Hret).
Defined.

Lemma find_crossover_ignores_extra_keys_witness :
  64 ∉ dom Examples.two_pass ∧
  _find_crossover Examples.two_pass (<[64 := (1 # 1000)%Q]> Examples.pebay)
    = _find_crossover Examples.two_pass Examples.pebay.
Proof.
  assert (64 ∉ dom Examples.two_pass) as Hk
    by (apply not_elem_of_dom; vm_compute; reflexivity).
  split; [exact Hk|].
  exact (find_crossover_ignores_extra_keys Examples.two_pass Examples.pebay
           64 (1 # 1000)%Q Hk).
Defined.

Lemma find_crossover_key_error_witness :
  16 ∈ dom Examples.two_pass ∧ Examples.pebay_without_16 !! 16 = None ∧
  (∀ k, k ∈ dom Examples.two_pass → k < 16 →
        pebay_faster Examples.two_pass Examples.pebay_without_16 k = false) ∧
  _find_crossover Examples.two_pass Examples.pebay_without_16 = Raise KeyError.
Proof.
  assert (16 ∈ dom Examples.two_pass) as Hm
    by (apply elem_of_dom; eexists; vm_compute; reflexivity).
  assert (Examples.pebay_without_16 !! 16 = None) as Hnone
    by (vm_compute; reflexivity).
  assert (∀ k, k ∈ dom Examples.two_pass → k < 16 →
            pebay_faster Examples.two_pass Examples.pebay_without_16 k = false)
    as Hslow.
  { intros k Hk Hlt.
    assert (k = 8 ∨ k = 16 ∨ k = 32) as [-> | [-> | ->] ].
    { unfold Examples.two_pass in Hk. rewrite !dom_insert_L, ?dom_singleton_L, ?dom_empty_L in Hk.
      set_solver. }
    - vm_compute. reflexivity.
    - lia.
    - lia. }
  split; [exact Hm|]. split; [exact Hnone|]. split; [exact Hslow|].
  exact (find_crossover_key_error Examples.two_pass Examples.pebay_without_16
           16 Hm Hnone Hslow).
Defined.

Lemma cache_hit_returns_stored_witness :
  read_error Examples.tuned = None ∧
  config_file Examples.tuned
    = Some (Encoded (JObj [("threshold", JInt 72);
                           ("system_id", JStr (Examples.digest Examples.host))])) ∧
  get_optimal_threshold Examples.digest true false false Examples.tuned
    = (Return (JInt 72), Examples.tuned).
Proof.
  pose proof (eq_refl : read_error Examples.tuned = None) as Hread.
  pose proof (eq_refl : config_file Examples.tuned
                = Some (Encoded (JObj [("threshold", JInt 72);
                                       ("system_id",
                                        JStr (Examples.digest Examples.host))])))
    as Hfile.
  split; [exact Hread|]. split; [exact Hfile|].
  exact (cache_hit_returns_stored Examples.digest true false Examples.tuned
           _ (JInt 72) Hread Hfile eq_refl eq_refl).
Defined.

Lemma benchmarked_threshold_in_sweep_witness :
  benchmarks Examples.digest true Examples.tuned ∧
  ∃ threshold w',
    get_optimal_threshold Examples.digest true false true Examples.tuned
      = (Return (JInt threshold), w') ∧
    threshold ∈ row_lengths ∧
    8 ≤ threshold ≤ 2024 ∧ (threshold - 8) `mod` 32 = 0.
Proof.
  assert (benchmarks Examples.digest true Examples.tuned) as Hmiss
    by (left; reflexivity).
  split; [exact Hmiss|].
  exact (benchmarked_threshold_in_sweep Examples.digest true false true
           Examples.tuned Hmiss).
Defined.

(** Two lengths, two rounds each, on the clock whose reading number [k] is
    [k * k]: the second length is timed on readings 4 to 7, and its mean
    duration is ((25 - 16) + (49 - 36)) / 2 = 11. *)
Lemma run_benchmark_values_witness :
  (2 : Z) ≠ 0 ∧ [8; 40] !! 1%nat = Some 40 ∧ 40 ∉ drop 2 [8; 40] ∧
  ∃ table w',
    _run_benchmark true [8; 40] 2 Examples.first_use = (Return table, w') ∧
    table !! 40
      = Some (fdiv
                (py_sum
                   (measured (clock Examples.first_use)
                      (reads Examples.first_use + 2 * Z.to_nat 2 * 1)
                      (Z.to_nat 2)))
                (f_of_Z 2)) ∧
    Qeq (fdiv
           (py_sum
              (measured (clock Examples.first_use)
                 (reads Examples.first_use + 2 * Z.to_nat 2 * 1)
                 (Z.to_nat 2)))
           (f_of_Z 2)) (11 # 1).
Proof.
  assert ((2 : Z) ≠ 0) as Hrep by lia.
  assert ([8; 40] !! 1%nat = Some 40) as Hi by reflexivity.
  assert (40 ∉ drop 2 [8; 40]) as Hlast by (cbn [drop]; apply not_elem_of_nil).
  split; [exact Hrep|]. split; [exact Hi|]. split; [exact Hlast|].
  destruct (run_benchmark_values (F:=Q) true [8; 40] 2 Examples.first_use 1 40
              Hrep Hi Hlast) as (table & w' & Hrun & Hvalue).
  exists table, w'. split; [exact Hrun|]. split; [exact Hvalue|].
  vm_compute. reflexivity.
Defined.

Lemma compute_moment_rows_all_twopass_witness :
  (∀ row, row ∈ Examples.matrix → Z.of_nat (length row) < 10) ∧
  compute_moment_rows Examples.twopass_stand_in Examples.pebay_stand_in
    Examples.matrix 10
    = (λ i, (λ row, round_half_up
                      (moment_at (Examples.twopass_stand_in row) i))
              <$> Examples.matrix) <$> seq 0 4.
Proof.
  assert (∀ row, row ∈ Examples.matrix → Z.of_nat (length row) < 10)
    as Hshort.
  { intros row Hrow. unfold Examples.matrix in Hrow.
    apply elem_of_cons in Hrow as [-> | Hrow]; [simpl; lia|].
    apply elem_of_cons in Hrow as [-> | Hrow]; [simpl; lia|].
    by apply elem_of_nil in Hrow. }
  split; [exact Hshort|].
  exact (compute_moment_rows_all_twopass Examples.twopass_stand_in
           Examples.pebay_stand_in Examples.matrix 10 Hshort).
Defined.

Lemma compute_moment_rows_all_pebay_witness :
  0 ≤ 0 ∧
  compute_moment_rows Examples.twopass_stand_in Examples.pebay_stand_in
    [[1; 2]; [3; 4]] 0
    = (λ i, (λ row, round_half_up
                      (moment_at (Examples.pebay_stand_in row) i))
              <$> [[1; 2]; [3; 4]]) <$> seq 0 4.
Proof.
  assert (0 ≤ 0) as Hlow by lia.
  split; [exact Hlow|].
  exact (compute_moment_rows_all_pebay Examples.twopass_stand_in
           Examples.pebay_stand_in [[1; 2]; [3; 4]] 0 Hlow).
Defined.

(** ** Comparison with expected values *)

(** Values within 0.01 of the expected ones match. *)
Example compare_outputs_close :
  compare_outputs Qabs Examples.tolerance Examples.computed_values
    Examples.expected_close
  = (["Moment μ1 matched."; "Moment μ2 matched."; "Moment μ3 matched.";
      "Moment μ4 matched."], Verdict true).
Proof. vm_compute. reflexivity. Qed.

(** A mean that is off by 0.02 is reported with its index and both
    values. *)
Example compare_outputs_off :
  compare_outputs Qabs Examples.tolerance Examples.computed_values
    Examples.expected_off
  = (["Moment μ1: 1 mismatches"; "   Index 1: computed=5.00, expected=5.02";
      "Moment μ2 matched."; "Moment μ3 matched."; "Moment μ4 matched."],
     Verdict false).
Proof. vm_compute. reflexivity. Qed.

Lemma compare_outputs_verdict_witness :
  (4 ≤ length Examples.computed_values)%nat ∧
  ∃ lines verdict,
    compare_outputs Qabs Examples.tolerance Examples.computed_values
      Examples.expected_off = (lines, Verdict verdict) ∧
    (verdict = true ↔
     length Examples.computed_values = length Examples.expected_off ∧
     ∀ (i : nat) cs es, (i < 4)%nat →
       Examples.computed_values !! i = Some cs →
       Examples.expected_off !! i = Some es →
       within_tolerance Qabs Examples.tolerance cs es).
Proof.
  assert (4 ≤ length Examples.computed_values)%nat as Hfour by (simpl; lia).
  split; [exact Hfour|].
  exact (compare_outputs_verdict Qabs Examples.tolerance
           Examples.computed_values Examples.expected_off Hfour).
Defined.

Lemma compare_outputs_index_error_witness :
  length [[(1 # 1)%Q]] = length [[(1 # 1)%Q]] ∧
  (length [[(1 # 1)%Q]] < 4)%nat ∧
  (compare_outputs Qabs Examples.tolerance [[(1 # 1)%Q]] [[(1 # 1)%Q]]).2
    = IndexError.
Proof.
  assert (length [[(1 # 1)%Q]] = length [[(1 # 1)%Q]]) as Hlen
    by reflexivity.
  assert (length [[(1 # 1)%Q]] < 4)%nat as Hshort by (simpl; lia).
  split; [exact Hlen|]. split; [exact Hshort|].
  exact (compare_outputs_index_error Qabs Examples.tolerance
           [[(1 # 1)%Q]] [[(1 # 1)%Q]] Hlen Hshort).
Defined.

Lemma compare_outputs_first_four_witness :
  length Examples.computed_values = length Examples.expected_close ∧
  (4 ≤ length Examples.computed_values)%nat ∧
  length [[(1 # 1)%Q]] = length [[(9 # 1)%Q]] ∧
  compare_outputs Qabs Examples.tolerance
    (Examples.computed_values ++ [[(1 # 1)%Q]])
    (Examples.expected_close ++ [[(9 # 1)%Q]])
    = compare_outputs Qabs Examples.tolerance Examples.computed_values
        Examples.expected_close.
Proof.
  assert (length Examples.computed_values = length Examples.expected_close)
    as Hlen by reflexivity.
  assert (4 ≤ length Examples.computed_values)%nat as Hfour by (simpl; lia).
  assert (length [[(1 # 1)%Q]] = length [[(9 # 1)%Q]]) as Hmore
    by reflexivity.
  split; [exact Hlen|]. split; [exact Hfour|]. split; [exact Hmore|].
  exact (compare_outputs_first_four Qabs Examples.tolerance
           Examples.computed_values Examples.expected_close
           [[(1 # 1)%Q]] [[(9 # 1)%Q]] Hlen Hfour Hmore).
Defined.

(** Expected values given row by row, four to a row, for the matrix of two
    rows: two sequences, not four. *)
Lemma compare_dispatched_row_count_witness :
  length [[(2 # 1)%Q; (67 # 100)%Q; (1 # 1)%Q; (1 # 1)%Q];
          [(5 # 1)%Q; (67 # 100)%Q; (1 # 1)%Q; (1 # 1)%Q]] ≠ 4%nat ∧
  compare_outputs Qabs Examples.tolerance
    (compute_moment_rows Examples.twopass_stand_in Examples.pebay_stand_in
       Examples.matrix 10)
    [[(2 # 1)%Q; (67 # 100)%Q; (1 # 1)%Q; (1 # 1)%Q];
     [(5 # 1)%Q; (67 # 100)%Q; (1 # 1)%Q; (1 # 1)%Q]]
    = (["Row count mismatch between computed and expected."], Verdict false).
Proof.
  assert (length [[(2 # 1)%Q; (67 # 100)%Q; (1 # 1)%Q; (1 # 1)%Q];
                  [(5 # 1)%Q; (67 # 100)%Q; (1 # 1)%Q; (1 # 1)%Q]] ≠ 4%nat)
    as Hne by (simpl; lia).
  split; [exact Hne|].
  exact (compare_dispatched_row_count Qabs Examples.tolerance
           Examples.twopass_stand_in Examples.pebay_stand_in
           Examples.matrix 10 _ Hne).
Defined.

(** ** Binary matrix files *)

(** The bytes of the example matrix, and what the reader makes of them. *)
Example write_bin_file_example :
  write_bin_file 3 Examples.matrix = Some Examples.matrix_file.
Proof. vm_compute. reflexivity. Qed.

Example read_binary_matrix_example :
  read_binary_matrix Examples.matrix_file = Return Examples.matrix.
Proof. vm_compute. reflexivity. Qed.

(** The header too short, as in the test-suite: four bytes. *)
Example read_binary_matrix_short_header :
  read_binary_matrix [x31; x32; x33; x34] = Raise ValueError.
Proof. reflexivity. Qed.

(** Bytes from 128 on are negative entries: 255 is -1, 128 is -128. *)
Example read_binary_matrix_negative :
  read_binary_matrix [x01; x00; x00; x00; x02; x00; x00; x00; xff; x80]
  = Return [[-1; -128]].
Proof. vm_compute. reflexivity. Qed.

Lemma write_read_round_trip_witness :
  (0 < length Examples.matrix)%nat ∧ (0 < 3)%nat ∧
  Z.of_nat (length Examples.matrix) < 2 ^ 31 ∧ Z.of_nat 3 < 2 ^ 31 ∧
  Forall (λ row, length row = 3%nat ∧ Forall (λ v, -128 ≤ v ≤ 127) row)
    Examples.matrix ∧
  ∃ file, write_bin_file 3 Examples.matrix = Some file ∧
          read_binary_matrix file = Return Examples.matrix.
Proof.
  assert (0 < length Examples.matrix)%nat as Hrows by (simpl; lia).
  assert (0 < 3)%nat as Hcols by lia.
  assert (Z.of_nat (length Examples.matrix) < 2 ^ 31) as Hrows_fit
    by (simpl; lia).
  assert (Z.of_nat 3 < 2 ^ 31) as Hcols_fit by lia.
  assert (Forall (λ row, length row = 3%nat ∧
                         Forall (λ v, -128 ≤ v ≤ 127) row) Examples.matrix)
    as Hmatrix.
  { unfold Examples.matrix.
    repeat (constructor; [split; [reflexivity|repeat (constructor; [lia|])];
                          constructor|]).
    constructor. }
  split; [exact Hrows|]. split; [exact Hcols|]. split; [exact Hrows_fit|].
  split; [exact Hcols_fit|]. split; [exact Hmatrix|].
  exact (write_read_round_trip 3 Examples.matrix Hrows Hcols Hrows_fit
           Hcols_fit Hmatrix).
Defined.

Lemma read_binary_matrix_shape_witness :
  read_binary_matrix Examples.matrix_file = Return Examples.matrix ∧
  Examples.matrix ≠ [] ∧
  ∃ N : nat, (0 < N)%nat ∧
    Forall (λ row, length row = N ∧ Forall (λ v, -128 ≤ v ≤ 127) row)
      Examples.matrix ∧
    length Examples.matrix_file = (8 + length Examples.matrix * N)%nat.
Proof.
  assert (read_binary_matrix Examples.matrix_file = Return Examples.matrix)
    as Hread by (vm_compute; reflexivity).
  split; [exact Hread|].
  exact (read_binary_matrix_shape Examples.matrix_file Examples.matrix Hread).
Defined.

Lemma read_binary_matrix_size_mismatch_witness :
  read_binary_matrix Examples.matrix_file = Return Examples.matrix ∧
  take 8 Examples.truncated_file = take 8 Examples.matrix_file ∧
  length Examples.truncated_file ≠ length Examples.matrix_file ∧
  read_binary_matrix Examples.truncated_file = Raise ValueError.
Proof.
  assert (read_binary_matrix Examples.matrix_file = Return Examples.matrix)
    as Hread by (vm_compute; reflexivity).
  assert (take 8 Examples.truncated_file = take 8 Examples.matrix_file)
    as Hhead by reflexivity.
  assert (length Examples.truncated_file ≠ length Examples.matrix_file)
    as Hlen by (simpl; lia).
  split; [exact Hread|]. split; [exact Hhead|]. split; [exact Hlen|].
  exact (read_binary_matrix_size_mismatch Examples.matrix_file
           Examples.truncated_file Examples.matrix Hread Hhead Hlen).
Defined.

(** ** The tuner: a failed write *)

Lemma truncated_write_invalidates_cache_witness :
  write_error Examples.disk_full
    = Some (DumpFails "No space left on device" "{ threshold") ∧
  benchmarks Examples.digest false Examples.disk_full ∧
  ∃ threshold w'',
    get_optimal_threshold Examples.digest true false false
      (set_config_file
         (config_file (get_optimal_threshold Examples.digest true false false
                         Examples.disk_full).2)
         Examples.first_use)
      = (Return (JInt threshold), w'') ∧
    calls w''
      = calls (set_config_file
                 (config_file (get_optimal_threshold Examples.digest true false
                                 false Examples.disk_full).2)
                 Examples.first_use)
        ++ harness_calls true row_lengths 5 ++ harness_calls false row_lengths 5.
Proof.
  pose proof (eq_refl : write_error Examples.disk_full
                = Some (DumpFails "No space left on device" "{ threshold"))
    as Hwrite.
  assert (benchmarks Examples.digest false Examples.disk_full) as Hmiss
    by (right; left; reflexivity).
  split; [exact Hwrite|]. split; [exact Hmiss|].
  exact (truncated_write_invalidates_cache Examples.digest true false false
           Examples.disk_full _ _ _ Hwrite Hmiss
           (config_file_set_config_file
              (config_file (get_optimal_threshold Examples.digest true false
                              false Examples.disk_full).2)
              Examples.first_use)).
Defined.

(** ** The tuner: the record written *)

Lemma stored_timings_lookup_witness :
  write_error Examples.first_use = None ∧
  benchmarks Examples.digest false Examples.first_use ∧
  ∃ twopass pebay threshold w2 w3 record twopass_json pebay_json,
    get_optimal_threshold Examples.digest true false false Examples.first_use
      = (Return (JInt threshold), w3) ∧
    fresh_threshold true false
      (print "Running algorithm benchmarks (first use or system changed)..."
         Examples.first_use).2 twopass pebay threshold w2 ∧
    config_file w3 = Some (Encoded record) ∧
    dict_getitem record "threshold" = Return (JInt threshold) ∧
    dict_getitem record "system_id"
      = Return (JStr (Examples.digest (ident Examples.first_use))) ∧
    dict_getitem record "twopass" = Return twopass_json ∧
    dict_getitem record "pebay" = Return pebay_json ∧
    ∀ n,
      dict_get twopass_json (pretty n)
        = Return (default JNull (JFloat <$> twopass !! n)) ∧
      dict_get pebay_json (pretty n)
        = Return (default JNull (JFloat <$> pebay !! n)) ∧
      (n ∈ row_lengths → is_Some (twopass !! n) ∧ is_Some (pebay !! n)).
Proof.
  pose proof (eq_refl : write_error Examples.first_use = None) as Hwrite.
  assert (benchmarks Examples.digest false Examples.first_use) as Hmiss
    by (right; left; reflexivity).
  split; [exact Hwrite|]. split; [exact Hmiss|].
  exact (stored_timings_lookup Examples.digest true false false
           Examples.first_use Hwrite Hmiss).
Defined.

(** On first use, the time stored for length 40 in the two-pass table of the
    file is the one measured on readings 10 to 19 of the clock. *)
Example stored_timing_of_40 :
  match config_file (get_optimal_threshold Examples.digest true false false
                       Examples.first_use).2 with
  | Some (Encoded record) =>
      match dict_getitem record "twopass" with
      | Return table => dict_get table "40"
      | Raise e => Raise e
      end
  | _ => Raise KeyError
  end
  = Return (JFloat (mean_duration Examples.ticking 10 5)).
Proof. vm_compute. reflexivity. Qed.
